(** * RPAK keys and the tax-lookup client of www.fastgst.in

    A shallow embedding of [src/_includes/rpak.js] and
    [src/_includes/tax-lookup-api.js].

    The file has three parts.  Part I holds the definitions: the JavaScript
    primitives the two scripts call (module [JS]), then the scripts
    themselves (modules [RPAK] and [TaxLookupAPI]), function by function and
    under the names the source gives them.  Part II holds the lemmas and the
    theorems about the statements of the specification, Part III further
    properties of the two scripts.

    Conventions of the embedding:
    - a JavaScript string is the list of its UTF-16 code units ([list N]);
    - a Number that the scripts only use as an integer is a [Z], and [None]
      in [option Z] stands for [NaN]; every integer that is derived from a
      clock reading stays far below 2^53, where Number arithmetic is exact;
    - an exception is the [Throw] case of [Completion]; a promise that has
      settled is an [Outcome];
    - the clock, the base64 capability of the host, the messages of the
      errors the engine raises itself and the network are inputs of the
      functions that consult them. *)

From Stdlib Require Import ZArith NArith QArith List String Ascii Bool Lia Zify.
From stdpp Require Import base option list gmap.
Import ListNotations.

(* ===================================================================== *)
(** * Part I: definitions                                                 *)
(* ===================================================================== *)

Module JS.

(** ** Strings *)

(** A string value: its UTF-16 code units, each below 65536. *)
Abbreviation jsstring := (list N).

(** The code units of a literal of the development (ASCII text). *)
Definition str (s : string) : jsstring :=
  map N_of_ascii (list_ascii_of_string s).

(** A code unit that [btoa] accepts. *)
Definition latin1 (c : N) : Prop := (c <= 255)%N.

(** A code unit of a string, and one that [btoa] refuses. *)
Definition utf16 (c : N) : Prop := (c < 65536)%N.
Definition wide (c : N) : Prop := utf16 c /\ (255 < c)%N.

(** [String.fromCharCode(n)]: the argument is reduced by ToUint16. *)
Definition fromCharCode (n : N) : N := (n mod 65536)%N.

(** [s.charCodeAt(i)] for an index within the string. *)
Definition charCodeAt (s : jsstring) (i : nat) : N := nth i s 0%N.

(** [s.startsWith(p)]. *)
Fixpoint startsWith (s p : jsstring) : bool :=
  match p, s with
  | [], _ => true
  | _ :: _, [] => false
  | c :: p', d :: s' => N.eqb c d && startsWith s' p'
  end.

(** [s.substring(a, b)] for constants [0 <= a <= b] (indices beyond the end
    are clamped to the length). *)
Definition substring (a b : nat) (s : jsstring) : jsstring :=
  take (b - a) (drop a s).

(** [s.substring(a)]. *)
Definition substring_from (a : nat) (s : jsstring) : jsstring := drop a s.

(** [s.split(sep)] for a separator of one code unit: the pieces between the
    occurrences of [sep]; the empty string gives one empty piece. *)
Fixpoint split (sep : N) (s : jsstring) : list jsstring :=
  match s with
  | [] => [[]]
  | c :: s' =>
      if N.eqb c sep then [] :: split sep s'
      else match split sep s' with
           | [] => [[c]]
           | piece :: pieces => (c :: piece) :: pieces
           end
  end.

(** [s.split('')]: one string per code unit. *)
Definition split_units (s : jsstring) : list jsstring :=
  map (fun c => [c]) s.

(** [pieces.join(sep)]. *)
Fixpoint join (sep : jsstring) (pieces : list jsstring) : jsstring :=
  match pieces with
  | [] => []
  | [p] => p
  | p :: rest => p ++ sep ++ join sep rest
  end.

(** [s.padStart(n, fill)]: [fill] repeated and cut to the missing length,
    put in front; a string that is long enough, or an empty [fill], leaves
    [s] as it is. *)
Definition padStart (n : nat) (fill s : jsstring) : jsstring :=
  match fill with
  | [] => s
  | _ => take (n - length s) (concat (replicate (n - length s) fill)) ++ s
  end.

(** WhiteSpace and LineTerminator code points of ECMAScript: what [trim]
    strips and what [parseInt] skips in front. *)
Definition is_space (c : N) : bool :=
  existsb (N.eqb c)
    [9; 10; 11; 12; 13; 32; 160; 5760; 8192; 8193; 8194; 8195; 8196; 8197;
     8198; 8199; 8200; 8201; 8202; 8232; 8233; 8239; 8287; 12288; 65279]%N.

Fixpoint trimStart (s : jsstring) : jsstring :=
  match s with
  | c :: s' => if is_space c then trimStart s' else s
  | [] => []
  end.

Definition trimEnd (s : jsstring) : jsstring := rev (trimStart (rev s)).

(** [s.trim()]. *)
Definition trim (s : jsstring) : jsstring := trimEnd (trimStart s).

(** ** Integers as text *)

Definition is_digit (c : N) : bool := (48 <=? c)%N && (c <=? 57)%N.

(** The decimal digits of [n], most significant first, in front of [acc].
    [fuel] bounds the number of digits; the bit length of [n] is enough. *)
Fixpoint digits_from (fuel : nat) (n : N) (acc : jsstring) : jsstring :=
  match fuel with
  | O => acc
  | S fuel' =>
      let acc' := (48 + n mod 10)%N :: acc in
      if (n / 10 =? 0)%N then acc' else digits_from fuel' (n / 10)%N acc'
  end.

Definition decimal_N (n : N) : jsstring :=
  digits_from (S (N.to_nat (N.size n))) n [].

(** Number::toString on an integer that prints without an exponent (below
    10^21 in size): the decimal digits, after a minus sign when negative. *)
Definition decimal (z : Z) : jsstring :=
  match z with
  | Zneg p => 45%N :: decimal_N (Npos p)
  | _ => decimal_N (Z.to_N z)
  end.

(** The value of a run of digits read from the left, and what follows it. *)
Fixpoint read_digits (acc : N) (s : jsstring) : N :=
  match s with
  | c :: s' => if is_digit c then read_digits (acc * 10 + (c - 48))%N s' else acc
  | [] => acc
  end.

(** [parseInt(s, 10)]: leading white space is skipped, then an optional
    sign, then the longest run of decimal digits is read; [None] is [NaN]
    (no digit where one is expected).  What follows the digits is ignored. *)
Definition parseInt (s : jsstring) : option Z :=
  let s1 := trimStart s in
  let '(neg, s2) :=
    match s1 with
    | 45%N :: r => (true, r)
    | 43%N :: r => (false, r)
    | _ => (false, s1)
    end in
  match s2 with
  | c :: _ =>
      if is_digit c
      then Some (if neg : bool then (- Z.of_N (read_digits 0 s2))%Z
                 else Z.of_N (read_digits 0 s2))
      else None
  | [] => None
  end.

(** ** Dates *)

Local Open Scope Z_scope.

Definition msPerDay : Z := 86400000.

(** Day number of a time value (milliseconds since the epoch, UTC). *)
Definition Day (t : Z) : Z := t / msPerDay.

(** Within an era of 400 years (146097 days, starting on a 1 March): the
    year of the era, the month (counted from 1) and the day of the month of
    day [doe] of the era. *)
Definition date_in_era (doe : Z) : Z * Z * Z :=
  let yoe := (doe - doe / 1460 + doe / 36524 - doe / 146096) / 365 in
  let doy := doe - (365 * yoe + yoe / 4 - yoe / 100) in
  let mp := (5 * doy + 2) / 153 in
  let d := doy - (153 * mp + 2) / 5 + 1 in
  let m := if mp <? 10 then mp + 3 else mp - 9 in
  (yoe, m, d).

(** The proleptic Gregorian date of a day number, as (year, month, day) with
    the month counted from 1: the civil calendar that ECMAScript's
    YearFromTime, MonthFromTime and DateFromTime describe. *)
Definition civil_from_days (days : Z) : Z * Z * Z :=
  let z := days + 719468 in
  let era := z / 146097 in
  let doe := z - era * 146097 in
  let '(yoe, m, d) := date_in_era doe in
  let y := yoe + era * 400 in
  (if m <=? 2 then y + 1 else y, m, d).

(** [d.getUTCFullYear()], [d.getUTCMonth()] (counted from 0) and
    [d.getUTCDate()] of the Date with time value [t]. *)
Definition getUTCFullYear (t : Z) : Z := fst (fst (civil_from_days (Day t))).
Definition getUTCMonth (t : Z) : Z := snd (fst (civil_from_days (Day t))) - 1.
Definition getUTCDate (t : Z) : Z := snd (civil_from_days (Day t)).

(** Time values of Date objects lie in this range. *)
Definition time_value (t : Z) : Prop :=
  -8640000000000000 <= t <= 8640000000000000.

Local Close Scope Z_scope.

(** ** Base64 of the host: [btoa] and [atob] *)

(** The character of a 6-bit value in the base64 alphabet. *)
Definition b64_char (v : N) : N :=
  (if v <? 26 then 65 + v
   else if v <? 52 then 97 + (v - 26)
   else if v <? 62 then 48 + (v - 52)
   else if v =? 62 then 43 else 47)%N.

(** The 6-bit value of a character of the alphabet. *)
Definition b64_value (c : N) : option N :=
  (if (65 <=? c) && (c <=? 90) then Some (c - 65)
   else if (97 <=? c) && (c <=? 122) then Some (c - 97 + 26)
   else if (48 <=? c) && (c <=? 57) then Some (c - 48 + 52)
   else if c =? 43 then Some 62
   else if c =? 47 then Some 63
   else None)%N.

(** The 6-bit groups of a byte string, three bytes to four groups; a last
    group of one or two bytes gives two or three, filled with zero bits. *)
Fixpoint sextets (bytes : list N) : list N :=
  match bytes with
  | a :: b :: c :: rest =>
      (a / 4 :: (a mod 4) * 16 + b / 16 :: (b mod 16) * 4 + c / 64
         :: c mod 64 :: sextets rest)%N
  | [a; b] => [a / 4; (a mod 4) * 16 + b / 16; (b mod 16) * 4]%N
  | [a] => [a / 4; (a mod 4) * 16]%N
  | [] => []
  end.

(** The "=" characters that fill the text to a multiple of four. *)
Definition b64_padding (len : nat) : jsstring :=
  match (len mod 3)%nat with
  | 1%nat => [61; 61]%N
  | 2%nat => [61%N]
  | _ => []
  end.

(** Standard base64 of a byte string. *)
Definition base64_encode (bytes : list N) : jsstring :=
  map b64_char (sextets bytes) ++ b64_padding (length bytes).

(** [btoa(s)]: the base64 of the bytes the code units of [s] are; [None]
    is the InvalidCharacterError raised when a code unit is above 255. *)
Definition btoa (s : jsstring) : option jsstring :=
  if forallb (fun c => c <=? 255)%N s then Some (base64_encode s) else None.

(** The bytes of a run of 6-bit groups: four groups to three bytes; of a
    last run of two or three groups the surplus bits are dropped. *)
Fixpoint bytes_of_sextets (vs : list N) : list N :=
  match vs with
  | p :: q :: r :: s :: rest =>
      (p * 4 + q / 16 :: (q mod 16) * 16 + r / 4 :: (r mod 4) * 64 + s
         :: bytes_of_sextets rest)%N
  | [p; q; r] => [p * 4 + q / 16; (q mod 16) * 16 + r / 4]%N
  | [p; q] => [p * 4 + q / 16]%N
  | _ => []
  end.

Definition is_ascii_whitespace (c : N) : bool :=
  existsb (N.eqb c) [9; 10; 12; 13; 32]%N.

(** One or two "=" at the end of [s] removed. *)
Definition strip_padding (s : jsstring) : jsstring :=
  match rev s with
  | 61%N :: 61%N :: r => rev r
  | 61%N :: r => rev r
  | _ => s
  end.

(** [atob(s)], the forgiving base64 decoding of the HTML standard: ASCII
    white space is dropped; when the length is a multiple of four, one or
    two "=" at the end are dropped; a length of 1 modulo 4 or a character
    outside the alphabet is a failure ([None]: InvalidCharacterError). *)
Definition atob (s : jsstring) : option jsstring :=
  let s1 := filter (fun c => is_ascii_whitespace c = false) s in
  let s2 := if (length s1 mod 4 =? 0)%nat then strip_padding s1 else s1 in
  if (length s2 mod 4 =? 1)%nat then None
  else bytes_of_sextets <$> mapM b64_value s2.

(** ** [encodeURIComponent] *)

Definition is_uri_unreserved (c : N) : bool :=
  ((65 <=? c) && (c <=? 90) || (97 <=? c) && (c <=? 122)
   || (48 <=? c) && (c <=? 57)
   || existsb (N.eqb c) [45; 95; 46; 33; 126; 42; 39; 40; 41])%N.

(** What an encoded component consists of: unreserved characters and "%". *)
Definition is_uri_safe (c : N) : bool := is_uri_unreserved c || (c =? 37)%N.

Definition hex_digit (v : N) : N := (if v <? 10 then 48 + v else 55 + v)%N.

Definition percent_byte (b : N) : jsstring :=
  [37%N; hex_digit (b / 16); hex_digit (b mod 16)].

Definition utf8 (cp : N) : list N :=
  (if cp <? 128 then [cp]
   else if cp <? 2048 then [192 + cp / 64; 128 + cp mod 64]
   else if cp <? 65536
        then [224 + cp / 4096; 128 + (cp / 64) mod 64; 128 + cp mod 64]
        else [240 + cp / 262144; 128 + (cp / 4096) mod 64;
              128 + (cp / 64) mod 64; 128 + cp mod 64])%N.

Definition is_high_surrogate (c : N) : bool := (55296 <=? c)%N && (c <=? 56319)%N.
Definition is_low_surrogate (c : N) : bool := (56320 <=? c)%N && (c <=? 57343)%N.

Definition percent_encode (cp : N) : jsstring :=
  concat (map percent_byte (utf8 cp)).

(** [encodeURIComponent(s)]: [None] is the URIError raised on a surrogate
    that has no partner. *)
Fixpoint encodeURIComponent (s : jsstring) : option jsstring :=
  match s with
  | [] => Some []
  | c :: rest =>
      if is_uri_unreserved c then cons c <$> encodeURIComponent rest
      else if is_low_surrogate c then None
      else if is_high_surrogate c then
        match rest with
        | d :: rest' =>
            if is_low_surrogate d
            then app (percent_encode ((c - 55296) * 1024 + (d - 56320) + 65536)%N)
                   <$> encodeURIComponent rest'
            else None
        | [] => None
        end
      else app (percent_encode c) <$> encodeURIComponent rest
  end.

(** ** Values *)

(** A Number: [NaN], an infinity, or a finite value (a rational; the
    doubles are among them, and 0 stands for both zeros). *)
Inductive JsNum :=
  | NaN
  | PosInf
  | NegInf
  | Fin (q : Q).

(** A value that holds data only: primitives, arrays and plain objects
    (own properties by name), with no callable property anywhere. *)
#[warnings="-register-all"]
Inductive JsValue :=
  | JUndefined
  | JNull
  | JBool (b : bool)
  | JNumber (n : JsNum)
  | JString (s : jsstring)
  | JArray (items : list JsValue)
  | JObject (props : gmap jsstring JsValue).

(** The integer [z] as a value. *)
Definition JInt (z : Z) : JsValue := JNumber (Fin (inject_Z z)).

(** [typeof v === 'number'] and [typeof v === 'string']. *)
Definition is_number (v : JsValue) : bool :=
  match v with JNumber _ => true | _ => false end.
Definition is_string (v : JsValue) : bool :=
  match v with JString _ => true | _ => false end.

(** ToBoolean, as [!v] and [if (v)] apply it. *)
Definition ToBoolean (v : JsValue) : bool :=
  match v with
  | JUndefined | JNull => false
  | JBool b => b
  | JNumber NaN => false
  | JNumber (Fin q) => negb (Qeq_bool q 0)
  | JNumber _ => true
  | JString s => match s with [] => false | _ => true end
  | JArray _ | JObject _ => true
  end.

(** [n < 1] on Numbers (false when [n] is [NaN]). *)
Definition lt_one (n : JsNum) : bool :=
  match n with
  | NaN | PosInf => false
  | NegInf => true
  | Fin q => negb (Qle_bool 1 q)
  end.

(** The integer a finite Number is, when it is one. *)
Definition as_integer (q : Q) : option Z :=
  if (Z.pos (Qden (Qred q)) =? 1)%Z then Some (Qnum (Qred q)) else None.

(** ** Errors, completions and the host *)

Inductive ErrorClass :=
  | Error
  | TypeError
  | URIError
  | DOMException.

(** An error object: its class and its [message]. *)
Record JsError := { err_class : ErrorClass; message : jsstring }.

(** How a call ends: with a value, or with a thrown error. *)
Inductive Completion (A : Type) :=
  | Normal (a : A)
  | Throw (e : JsError).
Arguments Normal {A} a.
Arguments Throw {A} e.

Definition bind {A B} (c : Completion A) (k : A -> Completion B) : Completion B :=
  match c with
  | Normal a => k a
  | Throw e => Throw e
  end.

(** [try { body } catch (error) { handler }]. *)
Definition try_catch {A} (body : Completion A) (handler : JsError -> Completion A)
  : Completion A :=
  match body with
  | Normal a => Normal a
  | Throw e => handler e
  end.

(** The errors the engine raises on its own account: a call of something
    that is not callable ([callee] is the expression called), a property
    read on [undefined] or [null], a character [btoa] or [atob] refuses, a
    string [encodeURIComponent] refuses. *)
Inductive Fault :=
  | NotAFunction (callee : jsstring)
  | ReadOfNullish (base : JsValue) (property : jsstring)
  | InvalidCharacter
  | MalformedURI.

Definition fault_class (f : Fault) : ErrorClass :=
  match f with
  | NotAFunction _ | ReadOfNullish _ _ => TypeError
  | InvalidCharacter => DOMException
  | MalformedURI => URIError
  end.

(** [Buffer] of Node: [Buffer.from(s).toString('base64')] and
    [Buffer.from(s, 'base64').toString('utf-8')].  Both are total. *)
Record BufferImpl := {
  base64_of_string : jsstring -> jsstring;
  string_of_base64 : jsstring -> jsstring }.

(** The host the scripts run on: which base64 globals it defines, how it
    prints the Numbers that [decimal] does not cover, and the messages of
    the errors it raises. *)
Record Env := {
  has_btoa : bool;
  has_atob : bool;
  Buffer : option BufferImpl;
  number_text : Q -> jsstring;
  fault_message : Fault -> jsstring }.

Definition fault {A} (env : Env) (f : Fault) : Completion A :=
  Throw {| err_class := fault_class f; message := fault_message env f |}.

(** [throw new Error(msg)]. *)
Definition throw_Error {A} (msg : jsstring) : Completion A :=
  Throw {| err_class := Error; message := msg |}.

(** [String(n)] and [`${n}`] on a Number. *)
Definition NumberToString (env : Env) (n : JsNum) : jsstring :=
  match n with
  | NaN => str "NaN"
  | PosInf => str "Infinity"
  | NegInf => str "-Infinity"
  | Fin q =>
      match as_integer q with
      | Some z =>
          if (Z.abs z <? 10 ^ 21)%Z then decimal z else number_text env q
      | None => number_text env q
      end
  end.

(** [`${x}`] on an integer that may be [NaN]. *)
Definition int_text (env : Env) (x : option Z) : jsstring :=
  match x with
  | Some z => NumberToString env (Fin (inject_Z z))
  | None => NumberToString env NaN
  end.

(** The clock as one call sees it: the time value [Date.now()] returns and
    the time value of the Date that [new Date()] creates (milliseconds). *)
Record Clock := { DateNow : Z; NewDate : Z }.

End JS.

(** ** rpak.js *)

Module RPAK.
Import JS.

(** [Math.floor(Date.now() / 1000)]. *)
Definition getCurrentEpoch (clk : Clock) : Z := (DateNow clk / 1000)%Z.

Definition getTodaysDateUTC (clk : Clock) : jsstring :=
  let now := NewDate clk in
  let day := padStart 2 (str "0") (decimal (getUTCDate now)) in
  let month := padStart 2 (str "0") (decimal (getUTCMonth now + 1)) in
  let year := getUTCFullYear now in
  day ++ month ++ decimal year.

Definition formatValidity (env : Env) (validityInSeconds : JsNum) : jsstring :=
  padStart 2 (str "0") (NumberToString env validityInSeconds).

(** The loop [for (i = 0; i < str.length; i++) result += ...]. *)
Definition xorEncode (s : jsstring) : jsstring :=
  fold_left
    (fun result i => result ++ [fromCharCode (N.lxor (charCodeAt s i) 42)])
    (seq 0 (length s)) [].

Definition xorDecode (s : jsstring) : jsstring :=
  fold_left
    (fun result i => result ++ [fromCharCode (N.lxor (charCodeAt s i) 42)])
    (seq 0 (length s)) [].

Definition reverseString (s : jsstring) : jsstring :=
  join [] (rev (split_units s)).

Definition encodeToBase64 (env : Env) (s : jsstring) : Completion jsstring :=
  let xored := xorEncode s in
  if has_btoa env then
    match btoa xored with
    | Some b => Normal b
    | None => fault env InvalidCharacter
    end
  else
    match Buffer env with
    | Some buffer => Normal (base64_of_string buffer xored)
    | None => throw_Error (str "Base64 encoding not supported in this environment")
    end.

Definition decodeFromBase64 (env : Env) (s : jsstring) : Completion jsstring :=
  bind
    (if has_atob env then
       match atob s with
       | Some d => Normal d
       | None => fault env InvalidCharacter
       end
     else
       match Buffer env with
       | Some buffer => Normal (string_of_base64 buffer s)
       | None => throw_Error (str "Base64 decoding not supported in this environment")
       end)
    (fun decoded => Normal (xorDecode decoded)).

(** [a + b] and [a - b] on integers that may be [NaN]. *)
Definition add (a b : option Z) : option Z :=
  match a, b with Some x, Some y => Some (x + y)%Z | _, _ => None end.
Definition sub (a b : option Z) : option Z :=
  match a, b with Some x, Some y => Some (x - y)%Z | _, _ => None end.

(** [a >= b], [a <= b], [a > b] and [a < b]: false when [a] is [NaN]. *)
Definition ge (a : option Z) (b : Z) : bool :=
  match a with Some x => (b <=? x)%Z | None => false end.
Definition le (a : option Z) (b : Z) : bool :=
  match a with Some x => (x <=? b)%Z | None => false end.
Definition gt (a : option Z) (b : Z) : bool :=
  match a with Some x => (b <? x)%Z | None => false end.
Definition lt (a : option Z) (b : Z) : bool :=
  match a with Some x => (x <? b)%Z | None => false end.

Definition generate (env : Env) (clk : Clock) (validityInSeconds payload : JsValue)
  : Completion jsstring :=
  match validityInSeconds with
  | JNumber validity =>
      if lt_one validity
      then throw_Error (str "Validity must be a positive number")
      else
        match payload with
        | JString payload =>
            if (length payload =? 0)%nat
            then throw_Error (str "Payload must be a non-empty string")
            else
              let currentEpoch := getCurrentEpoch clk in
              let todaysDate := getTodaysDateUTC clk in
              let combined := add (Some currentEpoch) (parseInt todaysDate) in
              let formattedValidity := formatValidity env validity in
              let prefixedValue := formattedValidity ++ int_text env combined in
              let dataString := prefixedValue ++ str "|" ++ payload in
              let reversed := reverseString dataString in
              bind (encodeToBase64 env reversed) (fun base64Encoded =>
              let rpakKey := str "RPAK_" ++ base64Encoded in
              Normal rpakKey)
        | _ => throw_Error (str "Payload must be a non-empty string")
        end
  | _ => throw_Error (str "Validity must be a positive number")
  end.

(** The record of a time-window verdict. *)
Record Verdict := {
  valid : bool;
  validity : Z;
  keyEpoch : option Z;
  currentEpoch : Z;
  timeDifference : option Z;
  payload : jsstring;
  expired : bool;
  notYetValid : bool }.

(** What [validate] returns: [{valid: false, error}] or a verdict. *)
Inductive VerificationResult :=
  | Invalid (error : jsstring)
  | Checked (verdict : Verdict).

Definition result_valid (r : VerificationResult) : bool :=
  match r with Invalid _ => false | Checked v => valid v end.
Definition result_error (r : VerificationResult) : option jsstring :=
  match r with Invalid e => Some e | Checked _ => None end.
Definition result_payload (r : VerificationResult) : option jsstring :=
  match r with Invalid _ => None | Checked v => Some (payload v) end.

Definition validate (env : Env) (clk : Clock) (rpakKey : JsValue)
  : Completion VerificationResult :=
  try_catch
    (if negb (ToBoolean rpakKey)
     then Normal (Invalid (str "Invalid RPAK format: Missing RPAK_ prefix"))
     else
       match rpakKey with
       | JString key =>
           if negb (startsWith key (str "RPAK_"))
           then Normal (Invalid (str "Invalid RPAK format: Missing RPAK_ prefix"))
           else
             let base64Part := substring_from 5 key in
             bind (decodeFromBase64 env base64Part) (fun decoded =>
             let decoded := reverseString decoded in
             let parts := split 124 decoded in
             if (length parts <? 2)%nat
             then Normal (Invalid (str "Invalid RPAK format: Missing pipe delimiter"))
             else
               let prefixedValue := nth 0 parts [] in
               let payload := join (str "|") (tail parts) in
               match parseInt (substring 0 2 prefixedValue) with
               | None =>
                   Normal (Invalid (str "Invalid RPAK format: Cannot parse validity"))
               | Some validityInSeconds =>
                   match parseInt (substring_from 2 prefixedValue) with
                   | None =>
                       Normal (Invalid
                         (str "Invalid RPAK format: Cannot parse combined value"))
                   | Some combinedValue =>
                       let todaysDate := getTodaysDateUTC clk in
                       let keyEpoch := sub (Some combinedValue) (parseInt todaysDate) in
                       let currentEpoch := getCurrentEpoch clk in
                       let timeDifference := sub (Some currentEpoch) keyEpoch in
                       let isValid :=
                         ge timeDifference 0 && le timeDifference validityInSeconds in
                       Normal (Checked {|
                         valid := isValid;
                         validity := validityInSeconds;
                         keyEpoch := keyEpoch;
                         currentEpoch := currentEpoch;
                         timeDifference := timeDifference;
                         payload := payload;
                         expired := gt timeDifference validityInSeconds;
                         notYetValid := lt timeDifference 0 |})
                   end
               end)
       | _ => fault env (NotAFunction (str "rpakKey.startsWith"))
       end)
    (fun error =>
       Normal (Invalid (str "Validation error: " ++ message error))).

End RPAK.

(** ** tax-lookup-api.js *)

Module TaxLookupAPI.
Import JS.

(** A promise that has settled. *)
Inductive Outcome (A : Type) :=
  | Resolved (a : A)
  | Rejected (e : JsError).
Arguments Resolved {A} a.
Arguments Rejected {A} e.

(** What [fetch] is called with. *)
Record Request := {
  url : jsstring;
  method : jsstring;
  headers : list (jsstring * jsstring) }.

(** What [fetch] resolves to, with what [response.text()] and
    [response.json()] settle to. *)
Record Response := {
  ok : bool;
  status : Z;
  statusText : jsstring;
  text : Outcome jsstring;
  json : Outcome JsValue }.

(** The network: how the [fetch] of a request settles. *)
Definition Network := Request -> Outcome Response.

(** An asynchronous call, run to its end: the requests it handed to
    [fetch], in order, and how its promise settled.  (Console output is not
    part of the model.) *)
Definition Async (A : Type) : Type := list Request * Outcome A.

Definition API_BASE_URL : jsstring := str "https://api.taxlookup.fastgst.in".

(** [throw new Error(msg)] in an async function, before any [fetch]. *)
Definition reject_Error {A} (msg : jsstring) : Async A :=
  ([], Rejected {| err_class := Error; message := msg |}).

Definition makeRequest (env : Env) (clk : Clock) (net : Network) (url : jsstring)
  : Async JsValue :=
  match RPAK.generate env clk (JInt 4) (JString (str "{}")) with
  | Throw e => ([], Rejected e)
  | Normal key =>
      let requestOptions := {|
        url := url;
        method := str "GET";
        headers := [(str "X-API-Key", key);
                    (str "ext-headers", str "--extscr=true");
                    (str "Content-Type", str "application/json");
                    (str "Accept", str "application/json")] |} in
      ([requestOptions],
       match net requestOptions with
       | Rejected e => Rejected e
       | Resolved response =>
           if negb (ok response) then
             match text response with
             | Rejected e => Rejected e
             | Resolved errorText =>
                 Rejected {| err_class := Error;
                             message := str "API Error: " ++ decimal (status response)
                                          ++ str " " ++ statusText response |}
             end
           else json response
       end)
  end.

(** [/^\d{4,8}$/.test(s)]. *)
Definition hsn_pattern (s : jsstring) : bool :=
  forallb is_digit s && (4 <=? length s)%nat && (length s <=? 8)%nat.

Definition searchByKeywords (env : Env) (clk : Clock) (net : Network) (query : JsValue)
  : Async JsValue :=
  if negb (ToBoolean query) then reject_Error (str "Search query cannot be empty")
  else
    match query with
    | JString query =>
        if (length (trim query) =? 0)%nat
        then reject_Error (str "Search query cannot be empty")
        else
          match encodeURIComponent (trim query) with
          | None =>
              ([], Rejected {| err_class := URIError;
                               message := fault_message env MalformedURI |})
          | Some encoded =>
              let url := API_BASE_URL ++ str "/search/hsn?query=" ++ encoded in
              makeRequest env clk net url
          end
    | _ =>
        ([], Rejected {| err_class := TypeError;
                         message := fault_message env (NotAFunction (str "query.trim")) |})
    end.

Definition getHierarchy (env : Env) (clk : Clock) (net : Network) (hsnCode : JsValue)
  : Async JsValue :=
  if negb (ToBoolean hsnCode) then reject_Error (str "HSN code cannot be empty")
  else
    match hsnCode with
    | JString hsnCode =>
        if (length (trim hsnCode) =? 0)%nat
        then reject_Error (str "HSN code cannot be empty")
        else if negb (hsn_pattern (trim hsnCode))
        then reject_Error (str "Invalid HSN code format. Must be 4-8 digits.")
        else
          let url := API_BASE_URL ++ str "/search/hsn/" ++ trim hsnCode in
          makeRequest env clk net url
    | _ =>
        ([], Rejected {| err_class := TypeError;
                         message := fault_message env (NotAFunction (str "hsnCode.trim")) |})
    end.

Definition getTaxInfo (env : Env) (clk : Clock) (net : Network) (hsnCode : JsValue)
  : Async JsValue :=
  if negb (ToBoolean hsnCode) then reject_Error (str "HSN code cannot be empty")
  else
    match hsnCode with
    | JString hsnCode =>
        if (length (trim hsnCode) =? 0)%nat
        then reject_Error (str "HSN code cannot be empty")
        else if negb (hsn_pattern (trim hsnCode))
        then reject_Error (str "Invalid HSN code format. Must be 4-8 digits.")
        else
          let url := API_BASE_URL ++ str "/search/hsn/" ++ trim hsnCode ++ str "/taxes" in
          makeRequest env clk net url
    | _ =>
        ([], Rejected {| err_class := TypeError;
                         message := fault_message env (NotAFunction (str "hsnCode.trim")) |})
    end.

(** The properties [getCompleteHSNInfo] reads off the responses.  None of
    them is an index, [length], or a name a built-in prototype defines. *)
Inductive Field := data | meta | request_id.

Definition field_name (f : Field) : jsstring :=
  match f with
  | data => str "data"
  | meta => str "meta"
  | request_id => str "request_id"
  end.

(** [v.f]: a TypeError on [undefined] and [null], the own property of a
    plain object, [undefined] on anything else. *)
Definition get (env : Env) (v : JsValue) (f : Field) : Completion JsValue :=
  match v with
  | JUndefined | JNull => fault env (ReadOfNullish v (field_name f))
  | JObject props => Normal (default JUndefined (props !! field_name f))
  | _ => Normal JUndefined
  end.

(** The properties [{...v}] copies: the own properties of an object, the
    elements of an array and the code units of a string under their
    indices, nothing of any other value. *)
Definition indexed {A} (f : A -> JsValue) (items : list A) : gmap jsstring JsValue :=
  list_to_map (imap (fun i x => (decimal (Z.of_nat i), f x)) items).

Definition spread (v : JsValue) : gmap jsstring JsValue :=
  match v with
  | JObject props => props
  | JArray items => indexed (fun x => x) items
  | JString s => indexed (fun c => JString [c]) s
  | _ => ∅
  end.

(** [Promise.all([h, t])] once both legs have run.  It resolves when both
    legs resolve and rejects with the first rejection to arrive: a leg that
    rejects before it waits for the network comes before one that waited,
    [h] before [t] when neither waited, and [t_first] tells which of two
    network waits ended first. *)
Definition promise_all (t_first : bool) (h t : Async JsValue)
  : Outcome (JsValue * JsValue) :=
  match snd h, snd t with
  | Resolved a, Resolved b => Resolved (a, b)
  | Rejected e, Resolved _ => Rejected e
  | Resolved _, Rejected e => Rejected e
  | Rejected e1, Rejected e2 =>
      match fst h, fst t with
      | [], _ => Rejected e1
      | _, [] => Rejected e2
      | _, _ => Rejected (if t_first then e2 else e1)
      end
  end.

(** The object literal [getCompleteHSNInfo] returns, property by property
    in the order the source evaluates them. *)
Definition complete_info (env : Env) (hierarchyData taxData : JsValue)
  : Completion JsValue :=
  bind (get env hierarchyData data) (fun hierarchy =>
  bind (get env taxData data) (fun taxInfo =>
  bind (get env hierarchyData meta) (fun hierarchy_meta =>
  bind (get env taxData meta) (fun tax_meta =>
  bind (get env tax_meta request_id) (fun tax_request_id =>
  let combined_meta :=
    <[str "tax_request_id" := tax_request_id]> (spread hierarchy_meta) in
  Normal (JObject
    (<[str "success" := JBool true]>
      (<[str "hierarchy" := hierarchy]>
        (<[str "taxInfo" := taxInfo]>
          (<[str "meta" := JObject combined_meta]> ∅)))))))))).

(** Both legs are called, one after the other, before either is awaited;
    [clk_h] and [clk_t] are the clock as each leg reads it. *)
Definition getCompleteHSNInfo (env : Env) (clk_h clk_t : Clock) (net : Network)
  (t_first : bool) (hsnCode : JsValue) : Async JsValue :=
  let h := getHierarchy env clk_h net hsnCode in
  let t := getTaxInfo env clk_t net hsnCode in
  (fst h ++ fst t,
   match promise_all t_first h t with
   | Resolved (hierarchyData, taxData) =>
       match complete_info env hierarchyData taxData with
       | Normal result => Resolved result
       | Throw error =>
           Rejected {| err_class := Error;
                       message := str "Failed to get complete HSN info: "
                                    ++ message error |}
       end
   | Rejected error =>
       Rejected {| err_class := Error;
                   message := str "Failed to get complete HSN info: "
                                ++ message error |}
   end).

(** [/^\d{6}$/.test(s)]. *)
Definition sac_pattern (s : jsstring) : bool :=
  forallb is_digit s && (length s =? 6)%nat.

Definition searchBySACKeywords (env : Env) (clk : Clock) (net : Network)
  (query : JsValue) : Async JsValue :=
  if negb (ToBoolean query) then reject_Error (str "Search query cannot be empty")
  else
    match query with
    | JString query =>
        if (length (trim query) =? 0)%nat
        then reject_Error (str "Search query cannot be empty")
        else
          match encodeURIComponent (trim query) with
          | None =>
              ([], Rejected {| err_class := URIError;
                               message := fault_message env MalformedURI |})
          | Some encoded =>
              let url := API_BASE_URL ++ str "/search/sac?query=" ++ encoded in
              makeRequest env clk net url
          end
    | _ =>
        ([], Rejected {| err_class := TypeError;
                         message := fault_message env (NotAFunction (str "query.trim")) |})
    end.

Definition getSACHierarchy (env : Env) (clk : Clock) (net : Network) (sacCode : JsValue)
  : Async JsValue :=
  if negb (ToBoolean sacCode) then reject_Error (str "SAC code cannot be empty")
  else
    match sacCode with
    | JString sacCode =>
        if (length (trim sacCode) =? 0)%nat
        then reject_Error (str "SAC code cannot be empty")
        else if negb (sac_pattern (trim sacCode))
        then reject_Error (str "Invalid SAC code format. Must be 6 digits.")
        else
          let url := API_BASE_URL ++ str "/search/sac/" ++ trim sacCode in
          makeRequest env clk net url
    | _ =>
        ([], Rejected {| err_class := TypeError;
                         message := fault_message env (NotAFunction (str "sacCode.trim")) |})
    end.

Definition getSACTaxInfo (env : Env) (clk : Clock) (net : Network) (sacCode : JsValue)
  : Async JsValue :=
  if negb (ToBoolean sacCode) then reject_Error (str "SAC code cannot be empty")
  else
    match sacCode with
    | JString sacCode =>
        if (length (trim sacCode) =? 0)%nat
        then reject_Error (str "SAC code cannot be empty")
        else if negb (sac_pattern (trim sacCode))
        then reject_Error (str "Invalid SAC code format. Must be 6 digits.")
        else
          let url := API_BASE_URL ++ str "/search/sac/" ++ trim sacCode ++ str "/taxes" in
          makeRequest env clk net url
    | _ =>
        ([], Rejected {| err_class := TypeError;
                         message := fault_message env (NotAFunction (str "sacCode.trim")) |})
    end.

(** As [getCompleteHSNInfo], over the two SAC calls. *)
Definition getCompleteSACInfo (env : Env) (clk_h clk_t : Clock) (net : Network)
  (t_first : bool) (sacCode : JsValue) : Async JsValue :=
  let h := getSACHierarchy env clk_h net sacCode in
  let t := getSACTaxInfo env clk_t net sacCode in
  (fst h ++ fst t,
   match promise_all t_first h t with
   | Resolved (hierarchyData, taxData) =>
       match complete_info env hierarchyData taxData with
       | Normal result => Resolved result
       | Throw error =>
           Rejected {| err_class := Error;
                       message := str "Failed to get complete SAC info: "
                                    ++ message error |}
       end
   | Rejected error =>
       Rejected {| err_class := Error;
                   message := str "Failed to get complete SAC info: "
                                ++ message error |}
   end).

(** The six functions of the public API that make one request each. *)
Definition single_request_methods
  : list (Env -> Clock -> Network -> JsValue -> Async JsValue) :=
  [searchByKeywords; searchBySACKeywords; getHierarchy; getTaxInfo;
   getSACHierarchy; getSACTaxInfo].

(** [testAPIConnection()], the function the page calls to try the API: the
    search for "milk" inside a [try], [null] when it fails. *)
Definition testAPIConnection (env : Env) (clk : Clock) (net : Network)
  : Async JsValue :=
  let search := searchByKeywords env clk net (JString (str "milk")) in
  (fst search,
   match snd search with
   | Resolved result => Resolved result
   | Rejected error => Resolved JNull
   end).

End TaxLookupAPI.

(** ** The earlier copy of tax-lookup-api.js *)

(** The repository holds a second copy of the client (without the SAC
    functions).  Its functions read as those of [TaxLookupAPI], except that
    [makeRequest] asks for a key with a window of 60 seconds. *)
Module TaxLookupAPI_60.
Import JS TaxLookupAPI.

Definition makeRequest (env : Env) (clk : Clock) (net : Network) (url : jsstring)
  : Async JsValue :=
  match RPAK.generate env clk (JInt 60) (JString (str "{}")) with
  | Throw e => ([], Rejected e)
  | Normal key =>
      let requestOptions := {|
        url := url;
        method := str "GET";
        headers := [(str "X-API-Key", key);
                    (str "ext-headers", str "--extscr=true");
                    (str "Content-Type", str "application/json");
                    (str "Accept", str "application/json")] |} in
      ([requestOptions],
       match net requestOptions with
       | Rejected e => Rejected e
       | Resolved response =>
           if negb (ok response) then
             match text response with
             | Rejected e => Rejected e
             | Resolved errorText =>
                 Rejected {| err_class := Error;
                             message := str "API Error: " ++ decimal (status response)
                                          ++ str " " ++ statusText response |}
             end
           else json response
       end)
  end.

End TaxLookupAPI_60.

(** ** Sample hosts and clocks, for the examples *)

Module Hosts.
Import JS.

(** The digits of the fraction [r / d] (with [r < d]), as long as they do
    not end, at most [fuel] of them. *)
Fixpoint fraction_digits (fuel : nat) (r d : Z) : jsstring :=
  match fuel with
  | O => []
  | S fuel' =>
      if (r =? 0)%Z then []
      else (48 + Z.to_N (r * 10 / d))%N
             :: fraction_digits fuel' ((r * 10) mod d)%Z d
  end.

(** A finite Number with a short decimal expansion, printed in full. *)
Definition plain_number_text (q : Q) : jsstring :=
  let n := Z.abs (Qnum q) in
  let d := Z.pos (Qden q) in
  (if (Qnum q <? 0)%Z then str "-" else [])
    ++ decimal (n / d)
    ++ (if (n mod d =? 0)%Z then [] else str "." ++ fraction_digits 20 (n mod d) d).

Definition sample_message (f : Fault) : jsstring :=
  match f with
  | NotAFunction callee => callee ++ str " is not a function"
  | ReadOfNullish base property =>
      str "Cannot read properties of "
        ++ (match base with JNull => str "null" | _ => str "undefined" end)
        ++ str " (reading '" ++ property ++ str "')"
  | InvalidCharacter => str "Invalid character"
  | MalformedURI => str "URI malformed"
  end.

(** A browser: [btoa] and [atob] are defined, [Buffer] is not. *)
Definition browser : Env := {|
  has_btoa := true;
  has_atob := true;
  Buffer := None;
  number_text := plain_number_text;
  fault_message := sample_message |}.

(** A host with no base64 capability at all. *)
Definition bare : Env := {|
  has_btoa := false;
  has_atob := false;
  Buffer := None;
  number_text := plain_number_text;
  fault_message := sample_message |}.

(** A clock read once, at time value [t]. *)
Definition at_time (t : Z) : Clock := {| DateNow := t; NewDate := t |}.

(** A [Buffer] that is right on ASCII text: base64 of the UTF-8 bytes one
    way, the decoded bytes as they are the other way. *)
Definition ascii_buffer : BufferImpl := {|
  base64_of_string := fun s => base64_encode (concat (map utf8 s));
  string_of_base64 := fun b => default [] (atob b) |}.

(** An old Node: [Buffer] is defined, [btoa] and [atob] are not. *)
Definition old_node : Env := {|
  has_btoa := false;
  has_atob := false;
  Buffer := Some ascii_buffer;
  number_text := plain_number_text;
  fault_message := sample_message |}.

(** A JSON body of the shape the service is expected to send:
    [{data: "d", meta: {request_id: "r1", tax_request_id: "old"}}]. *)
Definition sample_body : JsValue :=
  JObject
    (<[str "data" := JString (str "d")]>
      (<[str "meta" :=
           JObject (<[str "request_id" := JString (str "r1")]>
                     (<[str "tax_request_id" := JString (str "old")]> ∅))]> ∅)).

(** A network on which every [fetch] fails. *)
Definition offline : TaxLookupAPI.Network :=
  fun _ =>
    TaxLookupAPI.Rejected {| err_class := TypeError; message := str "Failed to fetch" |}.

(** A network on which every [fetch] is answered with status 404. *)
Definition not_found : TaxLookupAPI.Network :=
  fun _ =>
    TaxLookupAPI.Resolved {|
      TaxLookupAPI.ok := false;
      TaxLookupAPI.status := 404;
      TaxLookupAPI.statusText := str "Not Found";
      TaxLookupAPI.text := TaxLookupAPI.Resolved (str "no such code");
      TaxLookupAPI.json :=
        TaxLookupAPI.Rejected {| err_class := Error; message := str "Unexpected token" |} |}.

(** A network on which every [fetch] is answered with status 200 and a body
    that parses to [body]. *)
Definition serving (body : JsValue) : TaxLookupAPI.Network :=
  fun _ =>
    TaxLookupAPI.Resolved {|
      TaxLookupAPI.ok := true;
      TaxLookupAPI.status := 200;
      TaxLookupAPI.statusText := str "OK";
      TaxLookupAPI.text := TaxLookupAPI.Resolved [];
      TaxLookupAPI.json := TaxLookupAPI.Resolved body |}.

End Hosts.

(** ** The notions of the specification *)

Module Spec.
Import JS.

(** [n] as two decimal digits. *)
Definition pad2 (n : Z) : jsstring :=
  [Z.to_N (48 + n / 10); Z.to_N (48 + n mod 10)].

(** The UTC date of time value [t] as the integer DDMMYYYY. *)
Definition dateCode (t : Z) : Z :=
  (getUTCDate t * 1000000 + (getUTCMonth t + 1) * 10000 + getUTCFullYear t)%Z.

(** Every character code XORed with 42. *)
Definition xor42 (s : jsstring) : jsstring := map (fun c => N.lxor c 42) s.

(** The text a key carries and the key built from it. *)
Definition plaintext (validitySeconds : Z) (payload : jsstring) (epochNow dateCode : Z)
  : jsstring :=
  pad2 validitySeconds ++ decimal (epochNow + dateCode) ++ str "|" ++ payload.

(** The key that carries a given text. *)
Definition key_of_text (text : jsstring) : jsstring :=
  str "RPAK_" ++ base64_encode (xor42 (rev text)).

(** A character of ASCII. *)
Definition seven_bit (c : N) : Prop := (c < 128)%N.

(** What Node's [Buffer] does on ASCII text: [Buffer.from(s)] holds the
    character codes of [s], so its base64 is the base64 of [btoa], and
    decoding that base64 as UTF-8 gives [s] back. *)
Definition ascii_faithful (buffer : BufferImpl) : Prop :=
  forall s, Forall seven_bit s ->
    base64_of_string buffer s = base64_encode s
    /\ string_of_base64 buffer (base64_encode s) = s.

Definition token (validitySeconds : Z) (payload : jsstring) (epochNow dateCode : Z)
  : jsstring :=
  str "RPAK_"
    ++ base64_encode (xor42 (rev (plaintext validitySeconds payload epochNow dateCode))).

(** The clock shows a date with a year of four digits, at a time a Date can
    hold. *)
Definition plain_clock (clk : Clock) : Prop :=
  time_value (DateNow clk)
  /\ (1000 <= getUTCFullYear (NewDate clk) <= 9999)%Z.

(** The header of a key text: what stands before the first "|". *)
Fixpoint header (text : jsstring) : jsstring :=
  match text with
  | [] => []
  | c :: rest => if (c =? 124)%N then [] else c :: header rest
  end.



(** [undefined] or [null]. *)
Definition nullish (v : JsValue) : bool :=
  match v with
  | JUndefined | JNull => true
  | _ => false
  end.

(** The own property [name] of a plain object, [undefined] where there is
    none. *)
Definition property (v : JsValue) (name : jsstring) : JsValue :=
  match v with
  | JObject props => default JUndefined (props !! name)
  | _ => JUndefined
  end.

(** The arguments of [generate]: a Number that is a positive integer; a
    Number that is at least 1; anything that is no Number or is a Number
    below 1; a string that is not empty. *)
Definition positive_integer (v : JsValue) : bool :=
  match v with
  | JNumber (Fin q) =>
      match as_integer q with
      | Some z => (1 <=? z)%Z
      | None => false
      end
  | _ => false
  end.

Definition at_least_one (v : JsValue) : bool :=
  match v with
  | JNumber (Fin q) => Qle_bool 1 q
  | JNumber PosInf => true
  | _ => false
  end.

Definition below_one_or_no_number (v : JsValue) : bool :=
  match v with
  | JNumber (Fin q) => negb (Qle_bool 1 q)
  | JNumber NegInf => true
  | JNumber _ => false
  | _ => true
  end.

Definition nonempty_string (p : JsValue) : bool :=
  match p with
  | JString (_ :: _) => true
  | _ => false
  end.

(** The two errors [generate] raises about its arguments (the
    InvalidArgument of the specification). *)
Definition argument_error (e : JsError) : Prop :=
  err_class e = Error
  /\ (message e = str "Validity must be a positive number"
      \/ message e = str "Payload must be a non-empty string").

End Spec.

(** ** A bounded check *)

(** [P] holds at [i], [i + 1], ..., [fuel] integers in all: the form in
    which a property of a short range is settled by evaluation. *)
Fixpoint all_from (fuel : nat) (i : Z) (P : Z -> bool) : bool :=
  match fuel with
  | O => true
  | S fuel' => P i && all_from fuel' (i + 1)%Z P
  end.

(* ===================================================================== *)
(** * Part II: lemmas and theorems                                        *)
(* ===================================================================== *)

Import JS.

(** [lia] is to reason about division and remainder by constants too. *)
Ltac Zify.zify_post_hook ::= Z.to_euclidean_division_equations.

(** ** Checking a property on a range of integers by evaluation *)

Lemma all_from_spec fuel :
  forall i P, all_from fuel i P = true ->
  forall c, (i <= c < i + Z.of_nat fuel)%Z -> P c = true.
Proof.
  induction fuel as [|fuel IH]; intros i P H c Hc; [lia|].
  simpl in H. apply andb_prop in H as [H1 H2].
  destruct (Z.eq_dec c i) as [->|Hne]; [exact H1|].
  apply (IH _ _ H2). lia.
Qed.

(** The same for code units. *)
Lemma all_units_below (k : nat) (P : N -> bool) :
  all_from k 0 (fun z => P (Z.to_N z)) = true ->
  forall c, (c < N.of_nat k)%N -> P c = true.
Proof.
  intros H c Hc.
  pose proof (all_from_spec k 0%Z _ H (Z.of_N c)) as Hs. cbv beta in Hs.
  rewrite N2Z.id in Hs. apply Hs. lia.
Qed.

(** ** Strings *)

Lemma join_empty_sep pieces : join [] pieces = concat pieces.
Proof.
  induction pieces as [|p [|q rest] IH]; simpl in *.
  - reflexivity.
  - now rewrite app_nil_r.
  - now rewrite IH.
Qed.

Lemma reverseString_rev s : RPAK.reverseString s = rev s.
Proof.
  unfold RPAK.reverseString, split_units.
  rewrite join_empty_sep, <- map_rev.
  induction (rev s) as [|c r IH]; simpl; [reflexivity | now rewrite IH].
Qed.

Lemma xor_loop (g : N -> N) suf :
  forall pre acc,
    fold_left (fun result i => result ++ [g (charCodeAt (pre ++ suf) i)])
      (seq (length pre) (length suf)) acc
    = acc ++ map g suf.
Proof.
  induction suf as [|c suf IH]; intros pre acc; simpl.
  - now rewrite app_nil_r.
  - replace (charCodeAt (pre ++ c :: suf) (length pre)) with c.
    2:{ unfold charCodeAt. rewrite app_nth2 by lia.
        now replace (length pre - length pre)%nat with 0%nat by lia. }
    replace (pre ++ c :: suf) with ((pre ++ [c]) ++ suf)
      by now rewrite <- app_assoc.
    replace (S (length pre)) with (length (pre ++ [c]))
      by (rewrite length_app; simpl; lia).
    rewrite IH, <- app_assoc. reflexivity.
Qed.

(** The loop of [xorEncode] is a map over the code units. *)
Lemma xorEncode_map s :
  RPAK.xorEncode s = map (fun c => fromCharCode (N.lxor c 42)) s.
Proof.
  unfold RPAK.xorEncode.
  exact (xor_loop (fun c => fromCharCode (N.lxor c 42)) s [] []).
Qed.

Lemma xorDecode_map s :
  RPAK.xorDecode s = map (fun c => fromCharCode (N.lxor c 42)) s.
Proof.
  unfold RPAK.xorDecode.
  exact (xor_loop (fun c => fromCharCode (N.lxor c 42)) s [] []).
Qed.

Lemma xor42_latin1 c : latin1 c -> latin1 (N.lxor c 42).
Proof.
  unfold latin1. intros H.
  pose proof (all_units_below 256 (fun c => N.lxor c 42 <=? 255)%N) as E.
  cbv beta in E. apply N.leb_le, E; [vm_compute; reflexivity | lia].
Qed.

Lemma xor42_twice c : N.lxor (N.lxor c 42) 42 = c.
Proof. now rewrite N.lxor_assoc, N.lxor_nilpotent, N.lxor_0_r. Qed.

Lemma fromCharCode_latin1 c : latin1 c -> fromCharCode c = c.
Proof. unfold latin1, fromCharCode. intros H. apply N.mod_small. lia. Qed.

Lemma xorEncode_latin1 s : Forall latin1 s -> Forall latin1 (RPAK.xorEncode s).
Proof.
  rewrite xorEncode_map.
  induction 1 as [|c s Hc _ IH]; simpl; constructor; [|exact IH].
  rewrite fromCharCode_latin1; now apply xor42_latin1.
Qed.

Lemma xorDecode_xorEncode s :
  Forall latin1 s -> RPAK.xorDecode (RPAK.xorEncode s) = s.
Proof.
  rewrite xorDecode_map, xorEncode_map, map_map. intros H.
  induction H as [|c s Hc _ IH]; simpl; [reflexivity|].
  rewrite IH. f_equal.
  rewrite (fromCharCode_latin1 (N.lxor c 42)) by now apply xor42_latin1.
  rewrite xor42_twice. now apply fromCharCode_latin1.
Qed.

Lemma split_nonempty sep s : split sep s <> [].
Proof.
  destruct s as [|c s]; simpl; [discriminate|].
  destruct (N.eqb c sep); [discriminate|].
  destruct (split sep s); discriminate.
Qed.

(** Splitting at a separator and joining with it gives the string back. *)
Lemma join_split sep s : join [sep] (split sep s) = s.
Proof.
  induction s as [|c s IH]; simpl; [reflexivity|].
  destruct (N.eqb_spec c sep) as [->|Hne].
  - pose proof (split_nonempty sep s) as Hn.
    destruct (split sep s) as [|p ps]; [contradiction|].
    simpl. simpl in IH. now rewrite IH.
  - pose proof (split_nonempty sep s) as Hn.
    destruct (split sep s) as [|p ps]; [contradiction|].
    destruct ps as [|q qs]; simpl in *; now rewrite <- IH.
Qed.

(** The first piece of a split is what stands before the first separator. *)
Lemma split_head sep h rest :
  Forall (fun c => c <> sep) h ->
  split sep (h ++ sep :: rest) = h :: split sep rest.
Proof.
  induction 1 as [|c h Hc _ IH]; simpl.
  - now rewrite N.eqb_refl.
  - destruct (N.eqb_spec c sep) as [->|_]; [contradiction|].
    now rewrite IH.
Qed.

(** ** Decimal text and [parseInt] *)

Lemma digit_range c : is_digit c = true <-> (48 <= c <= 57)%N.
Proof. unfold is_digit. rewrite andb_true_iff, !N.leb_le. tauto. Qed.

Lemma digit_of_value k : (k < 10)%N -> is_digit (48 + k) = true.
Proof. intros H. apply digit_range. lia. Qed.

(** A digit is no white space, no sign and no "|", and it is Latin-1. *)
Lemma digit_plain c :
  is_digit c = true ->
  is_space c = false /\ c <> 45%N /\ c <> 43%N /\ c <> 124%N /\ latin1 c.
Proof.
  intros H. apply digit_range in H. unfold latin1.
  repeat split; try lia.
  pose proof (all_units_below 58
                (fun c => negb (is_digit c) || negb (is_space c))) as E.
  cbv beta in E. specialize (E eq_refl c ltac:(lia)).
  rewrite (proj2 (digit_range c) H) in E. simpl in E.
  now apply negb_true_iff in E.
Qed.

Lemma read_digits_app ds :
  Forall (fun c => is_digit c = true) ds ->
  forall a rest,
    read_digits a (ds ++ rest)
    = read_digits (fold_left (fun x c => x * 10 + (c - 48))%N ds a) rest.
Proof.
  induction 1 as [|c ds Hc _ IH]; intros a rest; simpl; [reflexivity|].
  now rewrite Hc, IH.
Qed.

(** What [digits_from] puts in front of [acc]: digits, at least one, that
    read back as [n]. *)
Lemma digits_from_spec f :
  forall n acc, (n < 2 ^ N.of_nat f)%N ->
  exists ds,
    digits_from (S f) n acc = ds ++ acc
    /\ Forall (fun c => is_digit c = true) ds
    /\ ds <> []
    /\ forall a, fold_left (fun x c => x * 10 + (c - 48))%N ds a
                 = (a * 10 ^ N.of_nat (length ds) + n)%N.
Proof.
  induction f as [|f IH]; intros n acc Hn.
  - assert (n = 0%N) by (simpl in Hn; lia). subst n.
    exists [48%N]. split; [reflexivity|]. split; [|split].
    + constructor; [reflexivity | constructor].
    + discriminate.
    + intros a. simpl. lia.
  - change (digits_from (S (S f)) n acc)
      with (if (n / 10 =? 0)%N then (48 + n mod 10)%N :: acc
            else digits_from (S f) (n / 10)%N ((48 + n mod 10)%N :: acc)).
    assert (Hd : is_digit (48 + n mod 10) = true).
    { apply digit_of_value. apply N.mod_lt. discriminate. }
    destruct (N.eqb_spec (n / 10) 0) as [Hz|Hz].
    + exists [(48 + n mod 10)%N]. split; [reflexivity|]. split; [|split].
      * constructor; [exact Hd | constructor].
      * discriminate.
      * intros a. simpl. pose proof (N.div_mod n 10 ltac:(discriminate)). lia.
    + destruct (IH (n / 10)%N ((48 + n mod 10)%N :: acc)) as (ds & E & Hds & Hne & Hv).
      { rewrite Nat2N.inj_succ, N.pow_succ_r' in Hn.
        apply N.Div0.div_lt_upper_bound. lia. }
      exists (ds ++ [(48 + n mod 10)%N]). split; [|split; [|split]].
      * rewrite E, <- app_assoc. reflexivity.
      * apply Forall_app. split; [exact Hds|]. constructor; [exact Hd | constructor].
      * destruct ds; discriminate.
      * intros a. rewrite fold_left_app, Hv, length_app. simpl.
        replace (N.of_nat (length ds + 1)) with (N.succ (N.of_nat (length ds))) by lia.
        rewrite N.pow_succ_r'.
        rewrite (N.add_comm 48), N.add_sub.
        rewrite (N.div_mod n 10) at 3 by discriminate. ring.
Qed.

Lemma decimal_N_spec n :
  exists ds,
    decimal_N n = ds
    /\ Forall (fun c => is_digit c = true) ds
    /\ ds <> []
    /\ forall a, fold_left (fun x c => x * 10 + (c - 48))%N ds a
                 = (a * 10 ^ N.of_nat (length ds) + n)%N.
Proof.
  destruct (digits_from_spec (N.to_nat (N.size n)) n []) as (ds & E & H).
  - rewrite N2Nat.id. apply N.size_gt.
  - exists ds. split; [|exact H]. unfold decimal_N. rewrite E. apply app_nil_r.
Qed.

(** A run of digits in front: [parseInt] reads exactly them when no digit
    follows. *)
Lemma parseInt_digits ds rest :
  Forall (fun c => is_digit c = true) ds -> ds <> [] ->
  match rest with c :: _ => is_digit c = false | [] => True end ->
  parseInt (ds ++ rest)
  = Some (Z.of_N (fold_left (fun x c => x * 10 + (c - 48))%N ds 0%N)).
Proof.
  intros Hds Hne Hrest. unfold parseInt.
  destruct ds as [|c ds]; [contradiction|].
  pose proof (Forall_inv Hds) as Hc. cbv beta in Hc.
  destruct (digit_plain c Hc) as (Hsp & H45 & H43 & _).
  simpl app. simpl trimStart. rewrite Hsp.
  assert (E : match c :: ds ++ rest with
              | 45%N :: r => (true, r)
              | 43%N :: r => (false, r)
              | _ => (false, c :: ds ++ rest)
              end = (false, c :: ds ++ rest)).
  { apply digit_range in Hc.
    destruct c as [|p]; [lia|].
    do 6 (destruct p as [p|p|]; try reflexivity); lia. }
  rewrite E, Hc. f_equal. f_equal.
  change (c :: ds ++ rest) with ((c :: ds) ++ rest).
  rewrite read_digits_app by exact Hds.
  destruct rest as [|d rest]; simpl; [reflexivity | now rewrite Hrest].
Qed.

Lemma parseInt_negative ds rest :
  Forall (fun c => is_digit c = true) ds -> ds <> [] ->
  match rest with c :: _ => is_digit c = false | [] => True end ->
  parseInt (45%N :: ds ++ rest)
  = Some (- Z.of_N (fold_left (fun x c => x * 10 + (c - 48))%N ds 0%N))%Z.
Proof.
  intros Hds Hne Hrest. unfold parseInt.
  change (trimStart (45%N :: ds ++ rest)) with (45%N :: ds ++ rest).
  cbv iota beta zeta.
  destruct ds as [|c ds]; [contradiction|].
  pose proof (Forall_inv Hds) as Hc. cbv beta in Hc.
  simpl app. cbv iota beta. rewrite Hc. f_equal. f_equal. f_equal.
  change (c :: ds ++ rest) with ((c :: ds) ++ rest).
  rewrite read_digits_app by exact Hds.
  destruct rest as [|d rest]; simpl; [reflexivity | now rewrite Hrest].
Qed.

(** [parseInt(String(z), 10) = z]. *)
Lemma parseInt_decimal z : parseInt (decimal z) = Some z.
Proof.
  destruct z as [|p|p]; simpl decimal.
  - reflexivity.
  - destruct (decimal_N_spec (N.pos p)) as (ds & E & Hds & Hne & Hv).
    simpl Z.to_N. rewrite E, <- (app_nil_r ds), parseInt_digits by auto.
    rewrite Hv. f_equal.
  - destruct (decimal_N_spec (N.pos p)) as (ds & E & Hds & Hne & Hv).
    rewrite E, <- (app_nil_r ds), parseInt_negative by auto.
    rewrite Hv. f_equal.
Qed.

(** The characters of [String(z)]: digits and the minus sign. *)
Lemma decimal_chars z :
  Forall (fun c => c <> 124%N /\ latin1 c) (decimal z).
Proof.
  assert (H : forall n, Forall (fun c => c <> 124%N /\ latin1 c) (decimal_N n)).
  { intros n. destruct (decimal_N_spec n) as (ds & E & Hds & _). rewrite E.
    eapply Forall_impl; [exact Hds|]. intros c Hc. cbv beta.
    destruct (digit_plain c Hc) as (_ & _ & _ & ? & ?). tauto. }
  destruct z; simpl; try apply H.
  constructor; [|apply H]. unfold latin1. split; [discriminate | lia].
Qed.


Lemma as_integer_inject z : as_integer (inject_Z z) = Some z.
Proof.
  assert (E : Qred (inject_Z z) = inject_Z z).
  { unfold Qred, inject_Z.
    pose proof (Z.ggcd_gcd z 1) as Hg.
    pose proof (Z.ggcd_correct_divisors z 1) as Hd.
    destruct (Z.ggcd z 1) as [g [a b]]. simpl in *.
    rewrite Z.gcd_1_r in Hg. subst g. destruct Hd as [Ha Hb].
    replace a with z by lia. replace b with 1%Z by lia. reflexivity. }
  unfold as_integer. rewrite E. reflexivity.
Qed.

Lemma NumberToString_integer env z :
  (Z.abs z < 10 ^ 21)%Z -> NumberToString env (Fin (inject_Z z)) = decimal z.
Proof.
  intros H. unfold NumberToString. rewrite as_integer_inject.
  now apply Z.ltb_lt in H as ->.
Qed.

(** Two-digit padding of a number below 100. *)
Lemma padStart_pad2 n :
  (0 <= n <= 99)%Z -> padStart 2 (str "0") (decimal n) = Spec.pad2 n.
Proof.
  intros H.
  pose proof (all_from_spec 100 0%Z
    (fun n => bool_decide (padStart 2 (str "0") (decimal n) = Spec.pad2 n))) as E.
  cbv beta in E. specialize (E ltac:(vm_compute; reflexivity) n ltac:(lia)).
  now apply bool_decide_eq_true in E.
Qed.

(** Every element of an explicit list of character codes is a digit. *)
Ltac all_digits :=
  repeat match goal with
         | |- Forall _ (_ :: _) => constructor; [apply digit_range; lia|]
         | |- Forall _ [] => constructor
         end.

Lemma pad2_digits n :
  (0 <= n <= 99)%Z -> Forall (fun c => is_digit c = true) (Spec.pad2 n).
Proof.
  intros H. unfold Spec.pad2. all_digits.
Qed.

(** A year of four digits is its first two digits and its last two. *)
Lemma decimal_year y :
  (1000 <= y <= 9999)%Z -> decimal y = Spec.pad2 (y / 100) ++ Spec.pad2 (y mod 100).
Proof.
  intros H.
  pose proof (all_from_spec (Z.to_nat 9000) 1000%Z
    (fun y => bool_decide
       (decimal y = Spec.pad2 (y / 100) ++ Spec.pad2 (y mod 100)))) as E.
  cbv beta in E. specialize (E ltac:(vm_compute; reflexivity) y ltac:(lia)).
  now apply bool_decide_eq_true in E.
Qed.

(** The value of a run of digits read after [a]. *)
Lemma digits_value_shift ds :
  forall a,
    fold_left (fun x c => x * 10 + (c - 48))%N ds a
    = (a * 10 ^ N.of_nat (length ds)
       + fold_left (fun x c => x * 10 + (c - 48))%N ds 0)%N.
Proof.
  induction ds as [|c ds IH]; intros a.
  - simpl. lia.
  - cbn [fold_left length]. rewrite IH, (IH (0 * 10 + (c - 48))%N).
    rewrite Nat2N.inj_succ, N.pow_succ_r'. ring.
Qed.

Lemma pad2_value n a :
  (0 <= n <= 99)%Z ->
  fold_left (fun x c => x * 10 + (c - 48))%N (Spec.pad2 n) a
  = (a * 100 + Z.to_N n)%N.
Proof.
  intros H. unfold Spec.pad2. cbn [fold_left].
  assert (E1 : (Z.to_N (48 + n / 10) - 48 = Z.to_N (n / 10))%N) by lia.
  assert (E2 : (Z.to_N (48 + n mod 10) - 48 = Z.to_N (n mod 10))%N) by lia.
  rewrite E1, E2.
  assert (E3 : (Z.to_N (n / 10) * 10 + Z.to_N (n mod 10) = Z.to_N n)%N) by lia.
  rewrite <- E3. ring.
Qed.

(** ** The calendar *)

Lemma date_in_era_range doe :
  (0 <= doe < 146097)%Z ->
  (1 <= snd (fst (date_in_era doe)) <= 12 /\ 1 <= snd (date_in_era doe) <= 31)%Z.
Proof.
  intros H.
  pose proof (all_from_spec (Z.to_nat 146097) 0%Z
    (fun doe => let '(_, m, d) := date_in_era doe in
                (1 <=? m)%Z && (m <=? 12)%Z && (1 <=? d)%Z && (d <=? 31)%Z)) as E.
  cbv beta in E. specialize (E ltac:(vm_compute; reflexivity) doe ltac:(lia)).
  destruct (date_in_era doe) as [[yoe m] d]. simpl.
  rewrite !andb_true_iff, !Z.leb_le in E. lia.
Qed.

(** The day of the month lies in 1..31 and the month in 0..11. *)
Lemma utc_date_range t :
  (1 <= getUTCDate t <= 31 /\ 0 <= getUTCMonth t <= 11)%Z.
Proof.
  unfold getUTCDate, getUTCMonth, civil_from_days. cbv zeta.
  set (z := (Day t + 719468)%Z).
  pose proof (date_in_era_range (z - z / 146097 * 146097)%Z) as H.
  destruct (date_in_era _) as [[yoe m] d]. simpl in *.
  assert (0 <= z - z / 146097 * 146097 < 146097)%Z by lia.
  lia.
Qed.


(** With a year of four digits the date string reads as DDMMYYYY. *)
Lemma todaysDate_dateCode clk :
  (1000 <= getUTCFullYear (NewDate clk) <= 9999)%Z ->
  parseInt (RPAK.getTodaysDateUTC clk) = Some (Spec.dateCode (NewDate clk)).
Proof.
  intros Hy. unfold RPAK.getTodaysDateUTC, Spec.dateCode. cbv zeta.
  destruct (utc_date_range (NewDate clk)) as [Hd Hm].
  set (d := getUTCDate (NewDate clk)) in *.
  set (m := getUTCMonth (NewDate clk)) in *.
  set (y := getUTCFullYear (NewDate clk)) in *.
  clearbody d m y.
  rewrite !padStart_pad2, decimal_year by lia.
  set (ds := Spec.pad2 d ++ Spec.pad2 (m + 1)
             ++ Spec.pad2 (y / 100) ++ Spec.pad2 (y mod 100)).
  assert (Hds : Forall (fun c => is_digit c = true) ds).
  { subst ds. repeat (apply Forall_app; split); apply pad2_digits; lia. }
  rewrite <- (app_nil_r ds).
  rewrite parseInt_digits; [|exact Hds|subst ds; discriminate|exact I].
  f_equal. subst ds. rewrite !fold_left_app, !pad2_value by lia.
  lia.
Qed.

(** ** Base64 *)

Lemma list_ind3 {A} (P : list A -> Prop) :
  P [] -> (forall a, P [a]) -> (forall a b, P [a; b]) ->
  (forall a b c l, P l -> P (a :: b :: c :: l)) ->
  forall l, P l.
Proof.
  intros H0 H1 H2 H3 l.
  enough (H : P l /\ (forall a, P (a :: l)) /\ (forall a b, P (a :: b :: l)))
    by apply H.
  induction l as [|x l (IH0 & IH1 & IH2)]; auto.
Qed.

Lemma b64_value_char v : (v < 64)%N -> b64_value (b64_char v) = Some v.
Proof.
  intros H.
  pose proof (all_units_below 64
                (fun v => bool_decide (b64_value (b64_char v) = Some v))) as E.
  cbv beta in E. specialize (E eq_refl v ltac:(lia)).
  now apply bool_decide_eq_true in E.
Qed.

(** A character of the alphabet is no white space and no "=". *)
Lemma b64_char_plain v :
  (v < 64)%N -> is_ascii_whitespace (b64_char v) = false /\ b64_char v <> 61%N.
Proof.
  intros H.
  pose proof (all_units_below 64
    (fun v => negb (is_ascii_whitespace (b64_char v))
              && negb (b64_char v =? 61)%N)) as E.
  cbv beta in E. specialize (E eq_refl v ltac:(lia)).
  apply andb_prop in E as [E1 E2].
  apply negb_true_iff in E1, E2. apply N.eqb_neq in E2. auto.
Qed.

Lemma sextets_range s :
  Forall latin1 s -> Forall (fun v => v < 64)%N (sextets s).
Proof.
  unfold latin1. induction s as [| a | a b | a b c s IH] using list_ind3;
    intros H; cbn [sextets].
  - constructor.
  - apply Forall_inv in H. repeat (constructor; [lia|]). constructor.
  - pose proof (Forall_inv H). pose proof (Forall_inv (Forall_inv_tail H)).
    cbv beta in *. repeat (constructor; [lia|]). constructor.
  - pose proof (Forall_inv H) as Ha.
    pose proof (Forall_inv (Forall_inv_tail H)) as Hb.
    pose proof (Forall_inv (Forall_inv_tail (Forall_inv_tail H))) as Hc.
    cbv beta in *. repeat (constructor; [lia|]).
    apply IH. exact (Forall_inv_tail (Forall_inv_tail (Forall_inv_tail H))).
Qed.

Lemma bytes_of_sextets_sextets s :
  Forall latin1 s -> bytes_of_sextets (sextets s) = s.
Proof.
  unfold latin1. induction s as [| a | a b | a b c s IH] using list_ind3;
    intros H; cbn [sextets bytes_of_sextets].
  - reflexivity.
  - apply Forall_inv in H. f_equal. lia.
  - pose proof (Forall_inv H). pose proof (Forall_inv (Forall_inv_tail H)).
    cbv beta in *. f_equal; [lia|]. f_equal. lia.
  - pose proof (Forall_inv H) as Ha.
    pose proof (Forall_inv (Forall_inv_tail H)) as Hb.
    pose proof (Forall_inv (Forall_inv_tail (Forall_inv_tail H))) as Hc.
    cbv beta in *. rewrite IH by exact (Forall_inv_tail (Forall_inv_tail (Forall_inv_tail H))).
    f_equal; [lia|]. f_equal; [lia|]. f_equal. lia.
Qed.

Lemma b64_padding_cases n :
  (n mod 3 = 0 /\ b64_padding n = [])%nat
  \/ (n mod 3 = 1 /\ b64_padding n = [61; 61]%N)%nat
  \/ (n mod 3 = 2 /\ b64_padding n = [61%N])%nat.
Proof.
  unfold b64_padding.
  pose proof (Nat.mod_upper_bound n 3 ltac:(discriminate)) as H.
  destruct (n mod 3)%nat as [|[|[|k]]]; auto; lia.
Qed.

Lemma mod4 k r : (r < 4 -> (4 * k + r) mod 4 = r)%nat.
Proof.
  intros H. rewrite Nat.add_comm, Nat.mul_comm, Nat.Div0.mod_add.
  now apply Nat.mod_small.
Qed.

(** The number of 6-bit groups, by the length of the byte string. *)
Lemma length_sextets s :
  (length (sextets s)
   = 4 * (length s / 3)
     + match length s mod 3 with 0 => 0 | 1 => 2 | _ => 3 end)%nat.
Proof.
  induction s as [| a | a b | a b c s IH] using list_ind3; try reflexivity.
  cbn [sextets length]. rewrite IH.
  replace (S (S (S (length s)))) with (length s + 1 * 3)%nat by lia.
  rewrite Nat.div_add, Nat.Div0.mod_add by discriminate. lia.
Qed.

Lemma mapM_b64_value vs :
  Forall (fun v => v < 64)%N vs -> mapM b64_value (map b64_char vs) = Some vs.
Proof.
  induction 1 as [|v vs Hv _ IH]; [reflexivity|].
  cbn [map mapM]. rewrite b64_value_char by exact Hv. simpl. rewrite IH.
  reflexivity.
Qed.

(** A list that does not end in "=" has nothing stripped. *)
Lemma not_padding x r (C : jsstring) :
  x <> 61%N ->
  match x :: r with
  | 61%N :: 61%N :: r' => rev r'
  | 61%N :: r' => rev r'
  | _ => C
  end = C.
Proof.
  intros H. destruct x as [|p]; [reflexivity|].
  do 6 (destruct p as [p|p|]; try reflexivity). contradiction.
Qed.

Lemma strip_padding_body body pad :
  Forall (fun c => c <> 61%N) body ->
  pad = [] \/ pad = [61; 61]%N \/ pad = [61%N] ->
  (pad = [] \/ body <> []) ->
  strip_padding (body ++ pad) = body.
Proof.
  intros Hb Hp Hne. unfold strip_padding. rewrite rev_app_distr.
  pose proof (List.Forall_rev Hb) as Hr.
  destruct Hp as [-> | [-> | ->]]; simpl rev; simpl app.
  - rewrite app_nil_r.
    destruct (rev body) as [|x r] eqn:E; [reflexivity|].
    apply not_padding. exact (Forall_inv Hr).
  - apply rev_involutive.
  - destruct (rev body) as [|x r] eqn:E.
    + destruct Hne as [Hne|Hne]; [discriminate|].
      apply (f_equal (@rev N)) in E. rewrite rev_involutive in E.
      simpl in E. contradiction.
    + assert (Eb : body = rev (x :: r)) by (rewrite <- E; now rewrite rev_involutive).
      rewrite Eb.
      destruct x as [|p]; [reflexivity|].
      do 6 (destruct p as [p|p|]; try reflexivity).
      exfalso. exact (Forall_inv Hr eq_refl).
Qed.

Lemma filter_all {A} (P : A -> Prop) `{forall x, Decision (P x)} (l : list A) :
  Forall P l -> filter P l = l.
Proof.
  induction 1 as [|x l Hx _ IH]; [reflexivity|].
  rewrite filter_cons_True by exact Hx. now rewrite IH.
Qed.

(** [atob] undoes [btoa]. *)
Lemma atob_base64_encode s :
  Forall latin1 s -> atob (base64_encode s) = Some s.
Proof.
  intros Hs. unfold atob, base64_encode.
  pose proof (sextets_range s Hs) as Hv.
  set (body := map b64_char (sextets s)).
  assert (Hbody : Forall (fun c => is_ascii_whitespace c = false /\ c <> 61%N) body).
  { subst body. induction Hv as [|v vs Hv _ IH]; simpl; constructor; auto.
    now apply b64_char_plain. }
  assert (Hlen : length body = length (sextets s)) by (subst body; apply length_map).
  pose proof (length_sextets s) as Hls.
  pose proof (b64_padding_cases (length s)) as Hpad.
  rewrite filter_all.
  2:{ apply Forall_app. split.
      - eapply Forall_impl; [exact Hbody|]. intros c Hc. apply Hc.
      - destruct Hpad as [[_ ->] | [[_ ->] | [_ ->]]];
          repeat constructor. }
  assert (E4 : (length (body ++ b64_padding (length s)) mod 4 =? 0)%nat = true).
  { apply Nat.eqb_eq. rewrite length_app, Hlen, Hls.
    set (k := (length s / 3)%nat).
    destruct Hpad as [[-> ->] | [[-> ->] | [-> ->]]]; simpl length.
    - replace (4 * k + 0 + 0)%nat with (4 * k + 0)%nat by lia. apply mod4; lia.
    - replace (4 * k + 2 + 2)%nat with (4 * (k + 1) + 0)%nat by lia. apply mod4; lia.
    - replace (4 * k + 3 + 1)%nat with (4 * (k + 1) + 0)%nat by lia. apply mod4; lia. }
  rewrite E4.
  rewrite strip_padding_body.
  - assert (E1 : (length body mod 4 =? 1)%nat = false).
    { apply Nat.eqb_neq. rewrite Hlen, Hls.
      destruct Hpad as [[-> _] | [[-> _] | [-> _]]]; rewrite mod4; lia. }
    rewrite E1. subst body. rewrite mapM_b64_value by exact Hv. simpl.
    now rewrite bytes_of_sextets_sextets.
  - eapply Forall_impl; [exact Hbody|]. intros c Hc. apply Hc.
  - destruct Hpad as [[_ ->] | [[_ ->] | [_ ->]]]; auto.
  - destruct Hpad as [[_ ->] | [[H1 _] | [H1 _]]]; [now left | right | right];
      intros Hnil; rewrite Hnil in Hlen; simpl in Hlen; rewrite Hls, H1 in Hlen; lia.
Qed.

Lemma btoa_latin1 s : Forall latin1 s -> btoa s = Some (base64_encode s).
Proof.
  intros H. unfold btoa.
  assert (E : forallb (fun c => c <=? 255)%N s = true).
  { induction H as [|c s Hc _ IH]; [reflexivity|].
    simpl. rewrite IH, andb_true_r. now apply N.leb_le. }
  now rewrite E.
Qed.

(** ** Keys: generation and validation *)

Lemma str_RPAK : str "RPAK_" = [82; 80; 65; 75; 95]%N.
Proof. reflexivity. Qed.

Lemma str_pipe : str "|" = [124%N].
Proof. reflexivity. Qed.

(** On Latin-1 text the loop of [xorEncode] is the XOR of the
    specification. *)
Lemma xorEncode_xor42 s : Forall latin1 s -> RPAK.xorEncode s = Spec.xor42 s.
Proof.
  rewrite xorEncode_map. unfold Spec.xor42.
  induction 1 as [|c s Hc _ IH]; simpl; [reflexivity|].
  rewrite IH. f_equal. apply fromCharCode_latin1. now apply xor42_latin1.
Qed.

Lemma dateCode_range t :
  (1000 <= getUTCFullYear t <= 9999)%Z ->
  (0 <= Spec.dateCode t < 100000000)%Z.
Proof.
  intros Hy. unfold Spec.dateCode.
  destruct (utc_date_range t) as [Hd Hm]. lia.
Qed.

Lemma plaintext_latin1 v payload e dc :
  (0 <= v <= 99)%Z -> Forall latin1 payload ->
  Forall latin1 (Spec.plaintext v payload e dc).
Proof.
  intros Hv Hp. unfold Spec.plaintext.
  apply Forall_app. split.
  { eapply Forall_impl; [exact (pad2_digits v Hv)|].
    intros c Hc. now apply digit_plain. }
  apply Forall_app. split.
  { eapply Forall_impl; [exact (decimal_chars (e + dc))|]. intros c Hc. apply Hc. }
  rewrite str_pipe. constructor; [unfold latin1; lia | exact Hp].
Qed.

(** What [generate] returns on a host with [btoa]. *)
Lemma generate_token env clk v payload :
  (1 <= v <= 99)%Z -> payload <> [] -> Forall latin1 payload ->
  has_btoa env = true -> Spec.plain_clock clk ->
  RPAK.generate env clk (JInt v) (JString payload)
  = Normal (Spec.token v payload (DateNow clk / 1000) (Spec.dateCode (NewDate clk))).
Proof.
  intros Hv Hne Hp Hb [Ht Hy]. unfold RPAK.generate, JInt.
  assert (E1 : lt_one (Fin (inject_Z v)) = false).
  { unfold lt_one, Qle_bool. simpl. apply negb_false_iff, Z.leb_le. lia. }
  rewrite E1.
  destruct payload as [|c0 payload0] eqn:Epl; [contradiction|].
  rewrite <- Epl in *. replace (length payload =? 0)%nat with false
    by (subst payload; reflexivity).
  cbv zeta.
  rewrite todaysDate_dateCode by exact Hy.
  unfold RPAK.getCurrentEpoch, RPAK.add, RPAK.formatValidity, int_text.
  pose proof (dateCode_range _ Hy) as Hdc.
  unfold time_value in Ht.
  rewrite !NumberToString_integer by lia.
  rewrite padStart_pad2 by lia.
  rewrite reverseString_rev.
  unfold RPAK.encodeToBase64. rewrite Hb.
  fold (Spec.plaintext v payload (DateNow clk / 1000) (Spec.dateCode (NewDate clk))).
  pose proof (plaintext_latin1 v payload (DateNow clk / 1000)
                (Spec.dateCode (NewDate clk)) ltac:(lia) Hp) as Hl.
  apply List.Forall_rev in Hl.
  rewrite btoa_latin1 by now apply xorEncode_latin1.
  rewrite xorEncode_xor42 by exact Hl.
  reflexivity.
Qed.

Lemma startsWith_app p s : startsWith (p ++ s) p = true.
Proof.
  induction p as [|c p IH]; simpl; [now destruct s|].
  now rewrite N.eqb_refl, IH.
Qed.

Lemma parseInt_pad2 v : (0 <= v <= 99)%Z -> parseInt (Spec.pad2 v) = Some v.
Proof.
  intros Hv. rewrite <- (app_nil_r (Spec.pad2 v)).
  rewrite parseInt_digits; [|now apply pad2_digits|discriminate|exact I].
  f_equal. rewrite pad2_value by exact Hv. lia.
Qed.

(** What [validate] returns on a key of the specified format, on a host
    with [atob]. *)
Lemma validate_token env clk v payload e dc :
  (0 <= v <= 99)%Z -> Forall latin1 payload -> has_atob env = true ->
  RPAK.validate env clk (JString (Spec.token v payload e dc))
  = let keyEpoch :=
      RPAK.sub (Some (e + dc)%Z) (parseInt (RPAK.getTodaysDateUTC clk)) in
    let timeDifference := RPAK.sub (Some (RPAK.getCurrentEpoch clk)) keyEpoch in
    Normal (RPAK.Checked {|
      RPAK.valid := RPAK.ge timeDifference 0 && RPAK.le timeDifference v;
      RPAK.validity := v;
      RPAK.keyEpoch := keyEpoch;
      RPAK.currentEpoch := RPAK.getCurrentEpoch clk;
      RPAK.timeDifference := timeDifference;
      RPAK.payload := payload;
      RPAK.expired := RPAK.gt timeDifference v;
      RPAK.notYetValid := RPAK.lt timeDifference 0 |}).
Proof.
  intros Hv Hp Ha. unfold RPAK.validate, Spec.token.
  set (text := Spec.plaintext v payload e dc).
  pose proof (plaintext_latin1 v payload e dc Hv Hp) as Hl. fold text in Hl.
  apply List.Forall_rev in Hl.
  replace (ToBoolean (JString (str "RPAK_" ++ base64_encode (Spec.xor42 (rev text)))))
    with true by reflexivity.
  rewrite startsWith_app. cbn [negb].
  replace (substring_from 5 (str "RPAK_" ++ base64_encode (Spec.xor42 (rev text))))
    with (base64_encode (Spec.xor42 (rev text))) by reflexivity.
  unfold RPAK.decodeFromBase64. rewrite Ha.
  rewrite <- xorEncode_xor42 by exact Hl.
  rewrite atob_base64_encode by now apply xorEncode_latin1.
  cbn [bind try_catch].
  rewrite xorDecode_xorEncode by exact Hl.
  rewrite reverseString_rev, rev_involutive.
  assert (Es : split 124 text
               = (Spec.pad2 v ++ decimal (e + dc)) :: split 124 payload).
  { subst text. unfold Spec.plaintext. rewrite str_pipe, app_assoc.
    apply split_head. apply Forall_app. split.
    - eapply Forall_impl; [exact (pad2_digits v Hv)|].
      intros c Hc. now apply digit_plain.
    - eapply Forall_impl; [exact (decimal_chars (e + dc))|]. intros c Hc. apply Hc. }
  rewrite Es.
  pose proof (split_nonempty 124 payload) as Hn.
  destruct (split 124 payload) as [|p ps] eqn:Esp; [contradiction|].
  cbn [length Nat.ltb Nat.leb nth tail]. rewrite <- Esp.
  rewrite str_pipe, join_split.
  replace (substring 0 2 (Spec.pad2 v ++ decimal (e + dc))) with (Spec.pad2 v)
    by reflexivity.
  replace (substring_from 2 (Spec.pad2 v ++ decimal (e + dc)))
    with (decimal (e + dc)) by reflexivity.
  rewrite parseInt_pad2 by exact Hv. rewrite parseInt_decimal.
  reflexivity.
Qed.

Lemma todaysDate_same_day c1 c2 :
  Day (NewDate c1) = Day (NewDate c2) ->
  RPAK.getTodaysDateUTC c1 = RPAK.getTodaysDateUTC c2.
Proof.
  intros H. unfold RPAK.getTodaysDateUTC, getUTCDate, getUTCMonth, getUTCFullYear.
  now rewrite H.
Qed.

(** A key validated on the UTC day it was generated on: the time
    difference is the number of seconds between the two clock readings. *)
Lemma validate_same_day env cg cv v payload :
  (1 <= v <= 99)%Z -> Forall latin1 payload -> has_atob env = true ->
  (1000 <= getUTCFullYear (NewDate cg) <= 9999)%Z ->
  Day (NewDate cv) = Day (NewDate cg) ->
  let elapsed := (RPAK.getCurrentEpoch cv - RPAK.getCurrentEpoch cg)%Z in
  RPAK.validate env cv
    (JString (Spec.token v payload (DateNow cg / 1000) (Spec.dateCode (NewDate cg))))
  = Normal (RPAK.Checked {|
      RPAK.valid := (0 <=? elapsed)%Z && (elapsed <=? v)%Z;
      RPAK.validity := v;
      RPAK.keyEpoch := Some (RPAK.getCurrentEpoch cg);
      RPAK.currentEpoch := RPAK.getCurrentEpoch cv;
      RPAK.timeDifference := Some elapsed;
      RPAK.payload := payload;
      RPAK.expired := (v <? elapsed)%Z;
      RPAK.notYetValid := (elapsed <? 0)%Z |}).
Proof.
  intros Hv Hp Ha Hy Hday elapsed.
  rewrite validate_token by (auto; lia). cbv zeta.
  rewrite (todaysDate_same_day cv cg Hday), todaysDate_dateCode by exact Hy.
  unfold RPAK.sub, RPAK.ge, RPAK.le, RPAK.gt, RPAK.lt, RPAK.getCurrentEpoch in *.
  replace (DateNow cg / 1000 + Spec.dateCode (NewDate cg)
           - Spec.dateCode (NewDate cg))%Z with (DateNow cg / 1000)%Z by lia.
  reflexivity.
Qed.

(** ** C1: the format of a generated key *)

(** C1, counterexample: on a host with [btoa], a payload with a code unit
    above 255 (here the rupee sign, U+20B9) makes [generate] raise instead
    of returning a key, although the validity 5 lies in [1, 99] and the
    payload is not empty. *)
Lemma generate_rupee_raises :
  RPAK.generate Hosts.browser (Hosts.at_time 1769903998123)
    (JInt 5) (JString [8377%N])
  = Throw {| err_class := DOMException; message := str "Invalid character" |}.
Proof. vm_compute. reflexivity. Qed.

(** C1 (amended): on a host with [btoa] whose clock shows a year of four
    digits, for every integer validity in [1, 99] and every non-empty payload
    whose code units are all at most 255, [generate] returns exactly
    "RPAK_" followed by the base64 of the XOR-42 of the reversed text
    [pad2(validity) ++ decimal(epochNow + dateCode) ++ "|" ++ payload], where
    [epochNow] is [Date.now()] in whole seconds and [dateCode] is the UTC date
    DDMMYYYY as an integer, added as integers. *)
Theorem generate_returns_token env clk v payload :
  (1 <= v <= 99)%Z -> payload <> [] -> Forall latin1 payload ->
  has_btoa env = true -> Spec.plain_clock clk ->
  RPAK.generate env clk (JInt v) (JString payload)
  = Normal
      (str "RPAK_"
         ++ base64_encode
              (Spec.xor42
                 (rev (Spec.pad2 v
                         ++ decimal (DateNow clk / 1000 + Spec.dateCode (NewDate clk))
                         ++ str "|" ++ payload)))).
Proof. intros. now apply generate_token. Qed.

Lemma generate_returns_token_witness :
  RPAK.generate Hosts.browser (Hosts.at_time 1769903998123)
    (JInt 5) (JString (str "a|b"))
  = Normal (str "RPAK_SFZLVh4YGhwbExoaEhsfGg==").
Proof.
  apply (generate_returns_token Hosts.browser (Hosts.at_time 1769903998123)
           5 (str "a|b")).
  - lia.
  - discriminate.
  - vm_compute. repeat (constructor; [discriminate|]). constructor.
  - reflexivity.
  - split; [unfold time_value; simpl; lia | vm_compute; split; discriminate].
Defined.

(** ** C2: the payload survives the round trip *)

(** C2, counterexample: with the payload "a|" followed by the rupee sign,
    [validate(generate(5, payload))] raises on a browser; no record with
    the payload comes back. *)
Lemma roundtrip_rupee_raises :
  bind (RPAK.generate Hosts.browser (Hosts.at_time 1769903998123)
          (JInt 5) (JString (str "a|" ++ [8377%N])))
       (fun key => RPAK.validate Hosts.browser (Hosts.at_time 1769903998123)
                     (JString key))
  = Throw {| err_class := DOMException; message := str "Invalid character" |}.
Proof. vm_compute. reflexivity. Qed.

(** C2 (amended): on a host with [btoa] and [atob], for every integer
    validity in [1, 99] and every non-empty payload whose code units are all
    at most 255 (payloads that contain "|" included), [generate] returns a
    key and [validate], whenever it is called on that key, returns a record
    whose payload is the original payload. *)
Theorem validate_generate_payload env cg cv v payload :
  (1 <= v <= 99)%Z -> payload <> [] -> Forall latin1 payload ->
  has_btoa env = true -> has_atob env = true -> Spec.plain_clock cg ->
  exists key r,
    RPAK.generate env cg (JInt v) (JString payload) = Normal key
    /\ RPAK.validate env cv (JString key) = Normal r
    /\ RPAK.result_payload r = Some payload.
Proof.
  intros Hv Hne Hp Hb Ha Hc.
  eexists. eexists. split; [now apply generate_token|].
  rewrite validate_token by (auto; lia). cbv zeta. split; reflexivity.
Qed.

Lemma validate_generate_payload_witness :
  exists key r,
    RPAK.generate Hosts.browser (Hosts.at_time 1769903998123)
      (JInt 5) (JString (str "a|b")) = Normal key
    /\ RPAK.validate Hosts.browser (Hosts.at_time 1769990000000) (JString key)
       = Normal r
    /\ RPAK.result_payload r = Some (str "a|b").
Proof.
  apply (validate_generate_payload Hosts.browser (Hosts.at_time 1769903998123)
           (Hosts.at_time 1769990000000) 5 (str "a|b")).
  - lia.
  - discriminate.
  - vm_compute. repeat (constructor; [discriminate|]). constructor.
  - reflexivity.
  - reflexivity.
  - split; [unfold time_value; simpl; lia | vm_compute; split; discriminate].
Defined.

(** ** C3: a key is valid right after it was generated *)




(** ** C4: a key expires *)

(** C4, counterexample: a key with a window of 5 seconds generated on
    31 January 2026 at 23:59:58 UTC and validated 12 seconds later, on
    1 February at 00:00:10.  The validator subtracts the date code of the new
    day (1022026, not 31012026), takes the key for one issued 29989988
    seconds in the future and reports it as not yet valid: [expired] is
    false. *)
Lemma expiry_missed_across_midnight :
  bind (RPAK.generate Hosts.browser (Hosts.at_time 1769903998000)
          (JInt 5) (JString (str "x")))
       (fun key => RPAK.validate Hosts.browser (Hosts.at_time 1769904010000)
                     (JString key))
  = Normal (RPAK.Checked {|
      RPAK.valid := false;
      RPAK.validity := 5;
      RPAK.keyEpoch := Some 1799893998%Z;
      RPAK.currentEpoch := 1769904010;
      RPAK.timeDifference := Some (-29989988)%Z;
      RPAK.payload := str "x";
      RPAK.expired := false;
      RPAK.notYetValid := true |}).
Proof. vm_compute. reflexivity. Qed.

(** C4 (amended): on a host with [btoa] and [atob], for a key generated
    with an integer validity in [1, 99] and validated on the UTC day of its
    generation, if more than [validity] whole seconds lie between generation
    and validation, the result has [expired] true and [valid] false. *)
Theorem validate_expired env cg cv v payload :
  (1 <= v <= 99)%Z -> payload <> [] -> Forall latin1 payload ->
  has_btoa env = true -> has_atob env = true -> Spec.plain_clock cg ->
  Day (NewDate cv) = Day (NewDate cg) ->
  (v < RPAK.getCurrentEpoch cv - RPAK.getCurrentEpoch cg)%Z ->
  exists key r,
    RPAK.generate env cg (JInt v) (JString payload) = Normal key
    /\ RPAK.validate env cv (JString key) = Normal (RPAK.Checked r)
    /\ RPAK.expired r = true
    /\ RPAK.valid r = false.
Proof.
  intros Hv Hne Hp Hb Ha [Ht Hy] Hday Hlate.
  eexists. eexists. split; [apply generate_token; auto; now split|].
  split; [now apply validate_same_day|].
  cbn [RPAK.valid RPAK.expired]. split.
  - apply Z.ltb_lt. exact Hlate.
  - apply andb_false_iff. right. apply Z.leb_gt. exact Hlate.
Qed.

Lemma validate_expired_witness :
  exists key r,
    RPAK.generate Hosts.browser (Hosts.at_time 1769860000000)
      (JInt 5) (JString (str "x")) = Normal key
    /\ RPAK.validate Hosts.browser (Hosts.at_time 1769860012000) (JString key)
       = Normal (RPAK.Checked r)
    /\ RPAK.expired r = true
    /\ RPAK.valid r = false.
Proof.
  apply (validate_expired Hosts.browser (Hosts.at_time 1769860000000)
           (Hosts.at_time 1769860012000) 5 (str "x")).
  - lia.
  - discriminate.
  - vm_compute. repeat (constructor; [discriminate|]). constructor.
  - reflexivity.
  - reflexivity.
  - split; [unfold time_value; simpl; lia | vm_compute; split; discriminate].
  - reflexivity.
  - vm_compute. reflexivity.
Defined.

(** ** C9: the verdict record is coherent *)





(** ** C5: [validate] never raises *)




(** ** C6: the argument checks of [generate] *)

(** C6, counterexample: 1.5 is no positive integer, yet with the payload
    "x" [generate] raises nothing and returns a key (whose validity field
    is "1.5"). *)
Lemma generate_accepts_fraction :
  Spec.positive_integer (JNumber (Fin (3 # 2))) = false
  /\ RPAK.generate Hosts.browser (Hosts.at_time 1769903998123)
       (JNumber (Fin (3 # 2))) (JString (str "x"))
     = Normal (str "RPAK_UlYeGBocGxMaGhIbHwQb").
Proof. split; vm_compute; reflexivity. Qed.

(** C6 (amended): [generate] raises the error "Validity must be a positive
    number" whenever the validity is no Number or is a Number below 1;
    for a Number that is at least 1, integer or not, it raises the error
    "Payload must be a non-empty string" whenever the payload is not a
    non-empty string, and raises neither of the two errors otherwise. *)
Theorem generate_argument_errors env clk v p :
  (Spec.below_one_or_no_number v = true ->
   RPAK.generate env clk v p
   = throw_Error (str "Validity must be a positive number"))
  /\ (Spec.at_least_one v = true -> Spec.nonempty_string p = false ->
      RPAK.generate env clk v p
      = throw_Error (str "Payload must be a non-empty string"))
  /\ (Spec.at_least_one v = true -> Spec.nonempty_string p = true ->
      forall e, RPAK.generate env clk v p = Throw e -> ~ Spec.argument_error e).
Proof.
  split; [|split].
  - intros Hv. unfold RPAK.generate.
    destruct v as [| |b|n|s|items|props]; try reflexivity.
    destruct n as [| | |q]; simpl in Hv; try discriminate; try reflexivity.
    unfold lt_one. now rewrite Hv.
  - intros Hv Hp. unfold RPAK.generate.
    destruct v as [| |b|n|s|items|props]; try discriminate.
    assert (E : lt_one n = false).
    { destruct n as [| | |q]; simpl in Hv; try discriminate; try reflexivity.
      unfold lt_one. now rewrite Hv. }
    rewrite E.
    destruct p as [| |b|m|s|items|props]; try reflexivity.
    destruct s; [reflexivity | discriminate].
  - intros Hv Hp e H [Hclass Hmsg]. unfold RPAK.generate in H.
    destruct v as [| |b|n|s|items|props]; try discriminate.
    assert (E : lt_one n = false).
    { destruct n as [| | |q]; simpl in Hv; try discriminate; try reflexivity.
      unfold lt_one. now rewrite Hv. }
    rewrite E in H.
    destruct p as [| |b|m|s|items|props]; try discriminate.
    destruct s as [|c s]; [discriminate|].
    cbn [length Nat.eqb] in H. cbv zeta in H.
    unfold RPAK.encodeToBase64 in H.
    destruct (has_btoa env).
    + destruct (btoa _); [discriminate|].
      injection H as <-. discriminate.
    + destruct (Buffer env); [discriminate|].
      injection H as <-. simpl in Hmsg.
      destruct Hmsg as [Hmsg|Hmsg]; vm_compute in Hmsg; discriminate.
Qed.

Import TaxLookupAPI.

(** ** The client: input checks and white space (C7, C10) *)

Lemma trimStart_spaces pre s :
  Forall (fun c => is_space c = true) pre -> trimStart (pre ++ s) = trimStart s.
Proof. induction 1 as [|c pre Hc _ IH]; simpl; [reflexivity | now rewrite Hc]. Qed.

Lemma trimStart_all_spaces s :
  Forall (fun c => is_space c = true) s -> trimStart s = [].
Proof. induction 1 as [|c s Hc _ IH]; simpl; [reflexivity | now rewrite Hc]. Qed.

Lemma trimStart_cases s :
  (Forall (fun c => is_space c = true) s /\ trimStart s = [])
  \/ (exists c t, trimStart s = c :: t /\ is_space c = false
                  /\ forall post, trimStart (s ++ post) = c :: t ++ post).
Proof.
  induction s as [|c s IH]; simpl.
  - left. split; [constructor | reflexivity].
  - destruct (is_space c) eqn:Ec.
    + destruct IH as [[Hall Ht] | (d & t & Ht & Hd & Hp)].
      * left. split; [now constructor | exact Ht].
      * right. exists d, t. repeat split; auto.
    + right. exists c, s. repeat split; auto.
Qed.

Lemma trimEnd_spaces s post :
  Forall (fun c => is_space c = true) post -> trimEnd (s ++ post) = trimEnd s.
Proof.
  intros H. unfold trimEnd. rewrite rev_app_distr, trimStart_spaces; [reflexivity|].
  now apply List.Forall_rev.
Qed.

(** White space around a string does not change what [trim] returns. *)
Lemma trim_surrounded pre s post :
  Forall (fun c => is_space c = true) pre ->
  Forall (fun c => is_space c = true) post ->
  trim (pre ++ s ++ post) = trim s.
Proof.
  intros Hpre Hpost. unfold trim. rewrite trimStart_spaces by exact Hpre.
  destruct (trimStart_cases s) as [[Hall Ht] | (c & t & Ht & _ & Hp)].
  - rewrite Ht, trimStart_all_spaces; [reflexivity|].
    apply Forall_app. now split.
  - rewrite Hp, Ht, app_comm_cons. now apply trimEnd_spaces.
Qed.

(** Each method looks at its argument through [trim] only. *)
Lemma searchByKeywords_trimmed env clk net s :
  searchByKeywords env clk net (JString s)
  = if (length (trim s) =? 0)%nat
    then reject_Error (str "Search query cannot be empty")
    else match encodeURIComponent (trim s) with
         | None =>
             ([], Rejected {| err_class := URIError;
                              message := fault_message env MalformedURI |})
         | Some encoded =>
             makeRequest env clk net
               (API_BASE_URL ++ str "/search/hsn?query=" ++ encoded)
         end.
Proof. destruct s; reflexivity. Qed.

Lemma getHierarchy_trimmed env clk net s :
  getHierarchy env clk net (JString s)
  = if (length (trim s) =? 0)%nat
    then reject_Error (str "HSN code cannot be empty")
    else if negb (hsn_pattern (trim s))
    then reject_Error (str "Invalid HSN code format. Must be 4-8 digits.")
    else makeRequest env clk net (API_BASE_URL ++ str "/search/hsn/" ++ trim s).
Proof. destruct s; reflexivity. Qed.

Lemma getTaxInfo_trimmed env clk net s :
  getTaxInfo env clk net (JString s)
  = if (length (trim s) =? 0)%nat
    then reject_Error (str "HSN code cannot be empty")
    else if negb (hsn_pattern (trim s))
    then reject_Error (str "Invalid HSN code format. Must be 4-8 digits.")
    else makeRequest env clk net
           (API_BASE_URL ++ str "/search/hsn/" ++ trim s ++ str "/taxes").
Proof. destruct s; reflexivity. Qed.

(** C7, counterexample: the code " 1234 " (a space on either side) does
    not match the pattern of 4 to 8 digits, yet [getHierarchy] does not
    fail: it hands [fetch] a request for the code 1234. *)
Lemma padded_code_is_requested :
  hsn_pattern (str " 1234 ") = false
  /\ map url (fst (getHierarchy Hosts.browser (Hosts.at_time 1769903998123)
                     Hosts.offline (JString (str " 1234 "))))
     = [str "https://api.taxlookup.fastgst.in/search/hsn/1234"].
Proof. split; vm_compute; reflexivity. Qed.

(** C7 (amended): each method checks its input before any request is
    made.  For a string that is empty or white space only,
    [searchByKeywords], [getHierarchy] and [getTaxInfo] reject with their
    "cannot be empty" error; for a string whose trimmed form is not 4 to 8
    digits, [getHierarchy] and [getTaxInfo] reject with the format error; in
    each of these cases no request is handed to [fetch].  A string whose
    trimmed form is 4 to 8 digits goes on to [makeRequest] with the URL of
    the trimmed code, and [makeRequest] hands exactly that request to
    [fetch] once the key for its header has been generated. *)
Theorem input_checked_before_request env clk net s :
  (trim s = [] ->
   searchByKeywords env clk net (JString s)
   = ([], Rejected {| err_class := Error;
                      message := str "Search query cannot be empty" |})
   /\ getHierarchy env clk net (JString s)
      = ([], Rejected {| err_class := Error;
                         message := str "HSN code cannot be empty" |})
   /\ getTaxInfo env clk net (JString s)
      = ([], Rejected {| err_class := Error;
                         message := str "HSN code cannot be empty" |}))
  /\ (trim s <> [] -> hsn_pattern (trim s) = false ->
      getHierarchy env clk net (JString s)
      = ([], Rejected {| err_class := Error;
                         message := str "Invalid HSN code format. Must be 4-8 digits." |})
      /\ getTaxInfo env clk net (JString s)
         = ([], Rejected {| err_class := Error;
                            message := str "Invalid HSN code format. Must be 4-8 digits." |}))
  /\ (hsn_pattern (trim s) = true ->
      getHierarchy env clk net (JString s)
      = makeRequest env clk net (API_BASE_URL ++ str "/search/hsn/" ++ trim s)
      /\ getTaxInfo env clk net (JString s)
         = makeRequest env clk net
             (API_BASE_URL ++ str "/search/hsn/" ++ trim s ++ str "/taxes"))
  /\ (forall target key,
        RPAK.generate env clk (JInt 4) (JString (str "{}")) = Normal key ->
        map url (fst (makeRequest env clk net target)) = [target]).
Proof.
  rewrite searchByKeywords_trimmed, getHierarchy_trimmed, getTaxInfo_trimmed.
  split; [|split; [|split]].
  - intros ->. repeat split; reflexivity.
  - intros Hne Hpat. rewrite Hpat.
    destruct (trim s); [contradiction|]. split; reflexivity.
  - intros Hpat. rewrite Hpat.
    destruct (trim s); [discriminate|]. split; reflexivity.
  - intros target key Hkey. unfold makeRequest. rewrite Hkey. reflexivity.
Qed.



(** ** C8: the two-way join of [getCompleteHSNInfo] *)

Lemma get_property env v f :
  Spec.nullish v = false -> get env v f = Normal (Spec.property v (field_name f)).
Proof. destruct v; try discriminate; reflexivity. Qed.

(** C8, counterexample: both requests are answered with status 200 and the
    JSON body [{}].  Both underlying calls succeed, yet the combined call
    fails: the tax result has no [meta] to read [request_id] from. *)
Lemma complete_info_fails_without_meta :
  snd (getHierarchy Hosts.browser (Hosts.at_time 1769903998123)
         (Hosts.serving (JObject ∅)) (JString (str "1234")))
  = Resolved (JObject ∅)
  /\ snd (getTaxInfo Hosts.browser (Hosts.at_time 1769903998123)
            (Hosts.serving (JObject ∅)) (JString (str "1234")))
     = Resolved (JObject ∅)
  /\ snd (getCompleteHSNInfo Hosts.browser (Hosts.at_time 1769903998123)
            (Hosts.at_time 1769903998123) (Hosts.serving (JObject ∅)) false
            (JString (str "1234")))
     = Rejected {|
         err_class := Error;
         message :=
           str "Failed to get complete HSN info: Cannot read properties of undefined (reading 'request_id')" |}.
Proof. repeat split; vm_compute; reflexivity. Qed.

(** C8 (amended): [getCompleteHSNInfo] starts [getHierarchy] and
    [getTaxInfo] one after the other before it waits for either, so the
    requests of both are made whatever becomes of the first.  If either call
    fails, it fails with an Error whose message is "Failed to get complete
    HSN info: " followed by the message of a failed call (the one that
    failed first).  If both succeed with results that are neither
    [undefined] nor [null], and the [meta] of the tax result is neither, it
    returns [{success: true, hierarchy, taxInfo, meta}] with the [data] of
    each result and, as [meta], the properties of the hierarchy result's
    [meta] with [tax_request_id] set to the [request_id] of the tax
    result's [meta]. *)
Theorem complete_info_join env clk_h clk_t net t_first hsnCode :
  let h := getHierarchy env clk_h net hsnCode in
  let t := getTaxInfo env clk_t net hsnCode in
  let c := getCompleteHSNInfo env clk_h clk_t net t_first hsnCode in
  fst c = fst h ++ fst t
  /\ ((exists e, snd h = Rejected e) \/ (exists e, snd t = Rejected e) ->
      exists e,
        (snd h = Rejected e \/ snd t = Rejected e)
        /\ snd c = Rejected {|
             err_class := Error;
             message := str "Failed to get complete HSN info: " ++ message e |})
  /\ (forall hierarchyData taxData,
        snd h = Resolved hierarchyData -> snd t = Resolved taxData ->
        Spec.nullish hierarchyData = false -> Spec.nullish taxData = false ->
        Spec.nullish (Spec.property taxData (str "meta")) = false ->
        snd c = Resolved (JObject
          (<[str "success" := JBool true]>
            (<[str "hierarchy" := Spec.property hierarchyData (str "data")]>
              (<[str "taxInfo" := Spec.property taxData (str "data")]>
                (<[str "meta" :=
                     JObject
                       (<[str "tax_request_id" :=
                            Spec.property (Spec.property taxData (str "meta"))
                              (str "request_id")]>
                          (spread (Spec.property hierarchyData (str "meta"))))]>
                   ∅)))))).
Proof.
  cbv zeta. unfold getCompleteHSNInfo. cbn [fst snd].
  set (h := getHierarchy env clk_h net hsnCode).
  set (t := getTaxInfo env clk_t net hsnCode).
  split; [reflexivity|]. split.
  - intros Hfail. unfold promise_all.
    destruct (snd h) as [a|e1] eqn:Eh, (snd t) as [b|e2] eqn:Et.
    + destruct Hfail as [[e He] | [e He]]; discriminate.
    + exists e2. split; [now right | reflexivity].
    + exists e1. split; [now left | reflexivity].
    + destruct (fst h); [exists e1; split; [now left | reflexivity]|].
      destruct (fst t); [exists e2; split; [now right | reflexivity]|].
      destruct t_first;
        [exists e2; split; [now right | reflexivity]
        |exists e1; split; [now left | reflexivity]].
  - intros hierarchyData taxData Eh Et Hh Ht Hm.
    unfold promise_all. rewrite Eh, Et. unfold complete_info.
    rewrite !(get_property env hierarchyData) by exact Hh.
    rewrite !(get_property env taxData) by exact Ht.
    cbn [bind field_name].
    rewrite get_property by exact Hm. reflexivity.
Qed.

(* ===================================================================== *)
(** * Part III: further properties of the two scripts                     *)
(* ===================================================================== *)

(** ** The XOR and base64 helpers *)

Lemma xor42_utf16 c : utf16 c -> utf16 (N.lxor c 42).
Proof.
  unfold utf16. intros H.
  destruct (N.eq_dec (N.lxor c 42) 0%N) as [E|E]; [rewrite E; lia|].
  change 65536%N with (2 ^ 16)%N in *.
  apply N.log2_lt_pow2; [lia|].
  pose proof (N.log2_lxor c 42) as Hl.
  assert (N.log2 c < 16)%N.
  { destruct (N.eq_dec c 0%N) as [->|Hc]; [reflexivity|].
    apply N.log2_lt_pow2; [lia | exact H]. }
  change (N.log2 42) with 5%N in Hl. lia.
Qed.

(** X1: [xorDecode] undoes [xorEncode] on every string (code units below
    65536), not only on Latin-1 text. *)
Theorem xorDecode_xorEncode_all s :
  Forall utf16 s -> RPAK.xorDecode (RPAK.xorEncode s) = s.
Proof.
  rewrite xorDecode_map, xorEncode_map, map_map.
  induction 1 as [|c s Hc _ IH]; simpl; [reflexivity|].
  rewrite IH. f_equal. unfold fromCharCode.
  pose proof (xor42_utf16 c Hc) as H1. unfold utf16 in *.
  rewrite (N.mod_small (N.lxor c 42)) by exact H1.
  rewrite xor42_twice. now apply N.mod_small.
Qed.

Lemma xorDecode_xorEncode_all_witness :
  RPAK.xorDecode (RPAK.xorEncode [8377; 55357; 56832; 97]%N)
  = [8377; 55357; 56832; 97]%N.
Proof.
  apply (xorDecode_xorEncode_all [8377; 55357; 56832; 97]%N).
  repeat (constructor; [reflexivity|]). constructor.
Defined.

(** X2: on a host with [btoa] and [atob], [decodeFromBase64] undoes
    [encodeToBase64] on every Latin-1 string. *)
Theorem decode_encode_base64 env s :
  has_btoa env = true -> has_atob env = true -> Forall latin1 s ->
  exists b,
    RPAK.encodeToBase64 env s = Normal b
    /\ RPAK.decodeFromBase64 env b = Normal s.
Proof.
  intros Hb Ha Hs. unfold RPAK.encodeToBase64, RPAK.decodeFromBase64.
  rewrite Hb, Ha. rewrite btoa_latin1 by now apply xorEncode_latin1.
  eexists. split; [reflexivity|].
  rewrite atob_base64_encode by now apply xorEncode_latin1.
  cbn [bind]. now rewrite xorDecode_xorEncode.
Qed.

Lemma decode_encode_base64_witness :
  exists b,
    RPAK.encodeToBase64 Hosts.browser (str "b|a|420619008150") = Normal b
    /\ RPAK.decodeFromBase64 Hosts.browser b = Normal (str "b|a|420619008150").
Proof.
  apply (decode_encode_base64 Hosts.browser (str "b|a|420619008150")).
  - reflexivity.
  - reflexivity.
  - vm_compute. repeat (constructor; [discriminate|]). constructor.
Defined.

(** A code unit above 255 stays above 255 under the XOR. *)
Lemma xor42_not_latin1 c :
  utf16 c -> (255 < c)%N -> (255 < fromCharCode (N.lxor c 42))%N.
Proof.
  intros Hu Hc. unfold fromCharCode.
  pose proof (xor42_utf16 c Hu) as H1. unfold utf16 in H1.
  rewrite N.mod_small by exact H1.
  destruct (N.le_gt_cases (N.lxor c 42) 255) as [Hle|Hgt]; [|exact Hgt].
  pose proof (xor42_latin1 _ Hle) as H2. unfold latin1 in H2.
  rewrite xor42_twice in H2. lia.
Qed.

Lemma btoa_refuses s :
  Exists (fun c => 255 < c)%N s -> btoa s = None.
Proof.
  intros H. unfold btoa.
  assert (E : forallb (fun c => c <=? 255)%N s = false).
  { induction H as [c s Hc | c s _ IH]; simpl.
    - apply N.leb_gt in Hc. now rewrite Hc.
    - rewrite IH. apply andb_false_r. }
  now rewrite E.
Qed.

Lemma xorEncode_wide s :
  Exists wide s -> Exists (fun c => 255 < c)%N (RPAK.xorEncode s).
Proof.
  rewrite xorEncode_map.
  induction 1 as [c s [Hu Hc] | c s _ IH]; simpl.
  - left. now apply xor42_not_latin1.
  - right. exact IH.
Qed.

(** X3: on a host with [btoa], [generate] raises the InvalidCharacterError
    of [btoa] whenever the payload has a code unit above 255, whatever the
    validity (a Number that passes the check) and the clock. *)
Theorem generate_refuses_wide_payload env clk validity payload :
  has_btoa env = true -> lt_one validity = false ->
  Exists wide payload ->
  RPAK.generate env clk (JNumber validity) (JString payload)
  = Throw {| err_class := DOMException;
             message := fault_message env InvalidCharacter |}.
Proof.
  intros Hb Hv He. unfold RPAK.generate. rewrite Hv.
  destruct payload as [|c0 p0] eqn:Ep; [inversion He|]. rewrite <- Ep in *.
  replace (length payload =? 0)%nat with false by (subst payload; reflexivity).
  cbv zeta. unfold RPAK.encodeToBase64. rewrite Hb, reverseString_rev.
  rewrite btoa_refuses; [reflexivity|].
  apply xorEncode_wide, List.Exists_rev.
  apply List.Exists_app. right. apply List.Exists_app. right. exact He.
Qed.

Lemma generate_refuses_wide_payload_witness :
  RPAK.generate Hosts.browser (Hosts.at_time 1769903998123)
    (JNumber (Fin (3 # 2))) (JString (str "Rs " ++ [8377%N]))
  = Throw {| err_class := DOMException; message := str "Invalid character" |}.
Proof.
  apply (generate_refuses_wide_payload Hosts.browser (Hosts.at_time 1769903998123)
           (Fin (3 # 2)) (str "Rs " ++ [8377%N])).
  - reflexivity.
  - reflexivity.
  - do 3 right. left. split; reflexivity.
Defined.

(** ** Hosts without [btoa] and [atob] *)

(** X4: on a host with none of [btoa], [atob] and [Buffer], [generate]
    raises "Base64 encoding not supported in this environment" for all
    arguments that pass its two checks, and [validate] answers every string
    that starts with "RPAK_" with the matching decoding error as a result,
    without raising. *)
Theorem no_base64_support env clk validity payload rest :
  has_btoa env = false -> has_atob env = false -> Buffer env = None ->
  lt_one validity = false -> payload <> [] ->
  RPAK.generate env clk (JNumber validity) (JString payload)
  = Throw {| err_class := Error;
             message := str "Base64 encoding not supported in this environment" |}
  /\ RPAK.validate env clk (JString (str "RPAK_" ++ rest))
     = Normal (RPAK.Invalid
         (str "Validation error: Base64 decoding not supported in this environment")).
Proof.
  intros Hb Ha HB Hv Hne. split.
  - unfold RPAK.generate. rewrite Hv.
    destruct payload as [|c0 p0]; [contradiction|].
    cbn [length Nat.eqb]. cbv zeta. unfold RPAK.encodeToBase64.
    now rewrite Hb, HB.
  - unfold RPAK.validate.
    replace (ToBoolean (JString (str "RPAK_" ++ rest))) with true by reflexivity.
    rewrite startsWith_app. cbn [negb].
    unfold RPAK.decodeFromBase64. now rewrite Ha, HB.
Qed.

Lemma no_base64_support_witness :
  RPAK.generate Hosts.bare (Hosts.at_time 1769903998123)
    (JNumber (Fin 5)) (JString (str "x"))
  = Throw {| err_class := Error;
             message := str "Base64 encoding not supported in this environment" |}
  /\ RPAK.validate Hosts.bare (Hosts.at_time 1769903998123)
       (JString (str "RPAK_" ++ str "SFZLVh4YGhwbExoaEhsfGg=="))
     = Normal (RPAK.Invalid
         (str "Validation error: Base64 decoding not supported in this environment")).
Proof.
  apply (no_base64_support Hosts.bare (Hosts.at_time 1769903998123)
           (Fin 5) (str "x") (str "SFZLVh4YGhwbExoaEhsfGg==")).
  - reflexivity.
  - reflexivity.
  - reflexivity.
  - reflexivity.
  - discriminate.
Defined.

(** ** Keys of any text *)

(** What [validate] makes of a key whose text the host can decode. *)
Lemma validate_decoded env clk header payload :
  Forall (fun c => c <> 124%N) header ->
  RPAK.decodeFromBase64 env
    (base64_encode (Spec.xor42 (rev (header ++ 124%N :: payload))))
  = Normal (rev (header ++ 124%N :: payload)) ->
  RPAK.validate env clk (JString (Spec.key_of_text (header ++ 124%N :: payload)))
  = Normal
      match parseInt (take 2 header) with
      | None => RPAK.Invalid (str "Invalid RPAK format: Cannot parse validity")
      | Some validity =>
          match parseInt (drop 2 header) with
          | None =>
              RPAK.Invalid (str "Invalid RPAK format: Cannot parse combined value")
          | Some combined =>
              let keyEpoch :=
                RPAK.sub (Some combined) (parseInt (RPAK.getTodaysDateUTC clk)) in
              let timeDifference :=
                RPAK.sub (Some (RPAK.getCurrentEpoch clk)) keyEpoch in
              RPAK.Checked {|
                RPAK.valid :=
                  RPAK.ge timeDifference 0 && RPAK.le timeDifference validity;
                RPAK.validity := validity;
                RPAK.keyEpoch := keyEpoch;
                RPAK.currentEpoch := RPAK.getCurrentEpoch clk;
                RPAK.timeDifference := timeDifference;
                RPAK.payload := payload;
                RPAK.expired := RPAK.gt timeDifference validity;
                RPAK.notYetValid := RPAK.lt timeDifference 0 |}
          end
      end.
Proof.
  intros Hsep Hdec. unfold RPAK.validate, Spec.key_of_text.
  set (text := header ++ 124%N :: payload) in *.
  replace (ToBoolean (JString (str "RPAK_" ++ base64_encode (Spec.xor42 (rev text)))))
    with true by reflexivity.
  rewrite startsWith_app. cbn [negb].
  replace (substring_from 5 (str "RPAK_" ++ base64_encode (Spec.xor42 (rev text))))
    with (base64_encode (Spec.xor42 (rev text))) by reflexivity.
  rewrite Hdec. cbn [bind try_catch].
  rewrite reverseString_rev, rev_involutive.
  subst text. rewrite split_head by exact Hsep.
  pose proof (split_nonempty 124 payload) as Hn.
  destruct (split 124 payload) as [|p ps] eqn:Esp; [contradiction|].
  cbn [length Nat.ltb Nat.leb nth tail]. rewrite <- Esp.
  rewrite str_pipe, join_split.
  unfold substring, substring_from.
  replace (2 - 0)%nat with 2%nat by reflexivity.
  change (drop 0 header) with header.
  destruct (parseInt (take 2 header)); [|reflexivity].
  destruct (parseInt (drop 2 header)); reflexivity.
Qed.

Lemma decode_atob env text :
  has_atob env = true -> Forall latin1 text ->
  RPAK.decodeFromBase64 env (base64_encode (Spec.xor42 text)) = Normal text.
Proof.
  intros Ha Hl. unfold RPAK.decodeFromBase64. rewrite Ha.
  rewrite <- xorEncode_xor42 by exact Hl.
  rewrite atob_base64_encode by now apply xorEncode_latin1.
  cbn [bind]. now rewrite xorDecode_xorEncode.
Qed.

(** X5: [validate] reads back any key that carries a Latin-1 text
    [header ++ "|" ++ payload] (no "|" in the header), whoever built it:
    the payload comes back unchanged, the validity is what [parseInt] reads
    from the first two characters of the header and the combined value what
    it reads from the others; a header that has no number in one of the two
    places gives the matching error.  The header has at most 17 characters,
    so that the combined value is below 10^15 and the subtractions are exact
    in Number arithmetic. *)
Theorem validate_key_of_text env clk header payload :
  has_atob env = true -> (length header <= 17)%nat ->
  Forall latin1 header -> Forall (fun c => c <> 124%N) header ->
  Forall latin1 payload ->
  RPAK.validate env clk (JString (Spec.key_of_text (header ++ 124%N :: payload)))
  = Normal
      match parseInt (take 2 header) with
      | None => RPAK.Invalid (str "Invalid RPAK format: Cannot parse validity")
      | Some validity =>
          match parseInt (drop 2 header) with
          | None =>
              RPAK.Invalid (str "Invalid RPAK format: Cannot parse combined value")
          | Some combined =>
              let keyEpoch :=
                RPAK.sub (Some combined) (parseInt (RPAK.getTodaysDateUTC clk)) in
              let timeDifference :=
                RPAK.sub (Some (RPAK.getCurrentEpoch clk)) keyEpoch in
              RPAK.Checked {|
                RPAK.valid :=
                  RPAK.ge timeDifference 0 && RPAK.le timeDifference validity;
                RPAK.validity := validity;
                RPAK.keyEpoch := keyEpoch;
                RPAK.currentEpoch := RPAK.getCurrentEpoch clk;
                RPAK.timeDifference := timeDifference;
                RPAK.payload := payload;
                RPAK.expired := RPAK.gt timeDifference validity;
                RPAK.notYetValid := RPAK.lt timeDifference 0 |}
          end
      end.
Proof.
  intros Ha _ Hh Hsep Hp. apply validate_decoded; [exact Hsep|].
  apply decode_atob; [exact Ha|].
  apply List.Forall_rev, Forall_app. split; [exact Hh|].
  constructor; [unfold latin1; lia | exact Hp].
Qed.

Lemma validate_key_of_text_witness :
  RPAK.validate Hosts.browser (Hosts.at_time 1769903998123)
    (JString (Spec.key_of_text (str "071800916020" ++ 124%N :: str "a|b")))
  = Normal (RPAK.Checked {|
      RPAK.valid := true;
      RPAK.validity := 7;
      RPAK.keyEpoch := Some 1769903994%Z;
      RPAK.currentEpoch := 1769903998;
      RPAK.timeDifference := Some 4%Z;
      RPAK.payload := str "a|b";
      RPAK.expired := false;
      RPAK.notYetValid := false |}).
Proof.
  apply (validate_key_of_text Hosts.browser (Hosts.at_time 1769903998123)
           (str "071800916020") (str "a|b")).
  - reflexivity.
  - simpl. lia.
  - vm_compute. repeat (constructor; [discriminate|]). constructor.
  - vm_compute. repeat (constructor; [discriminate|]). constructor.
  - vm_compute. repeat (constructor; [discriminate|]). constructor.
Defined.

(** What [generate] returns for any validity whose text is Latin-1. *)
Lemma generate_key_of_text env clk validity payload :
  has_btoa env = true -> lt_one validity = false -> payload <> [] ->
  Forall latin1 (RPAK.formatValidity env validity) -> Forall latin1 payload ->
  Spec.plain_clock clk ->
  RPAK.generate env clk (JNumber validity) (JString payload)
  = Normal (Spec.key_of_text
              ((RPAK.formatValidity env validity
                  ++ decimal (DateNow clk / 1000 + Spec.dateCode (NewDate clk)))
                 ++ 124%N :: payload)).
Proof.
  intros Hb Hv Hne Hf Hp [Ht Hy]. unfold RPAK.generate. rewrite Hv.
  destruct payload as [|c0 payload0] eqn:Epl; [contradiction|].
  rewrite <- Epl in *. replace (length payload =? 0)%nat with false
    by (subst payload; reflexivity).
  cbv zeta.
  rewrite todaysDate_dateCode by exact Hy.
  unfold RPAK.getCurrentEpoch, RPAK.add, int_text.
  pose proof (dateCode_range _ Hy) as Hdc.
  unfold time_value in Ht.
  rewrite NumberToString_integer by lia.
  rewrite reverseString_rev, str_pipe.
  unfold RPAK.encodeToBase64. rewrite Hb.
  set (c := (DateNow clk / 1000 + Spec.dateCode (NewDate clk))%Z).
  change (([124%N] ++ payload)) with (124%N :: payload).
  set (text := (RPAK.formatValidity env validity ++ decimal c) ++ 124%N :: payload).
  assert (Hl : Forall latin1 (rev text)).
  { apply List.Forall_rev. subst text. apply Forall_app. split.
    - apply Forall_app. split; [exact Hf|].
      eapply Forall_impl; [exact (decimal_chars c)|]. intros x Hx. apply Hx.
    - constructor; [unfold latin1; lia | exact Hp]. }
  rewrite btoa_latin1 by now apply xorEncode_latin1.
  rewrite xorEncode_xor42 by exact Hl. reflexivity.
Qed.

(** ** Validities that are no integer of one or two digits *)

(** X6: [generate] accepts [NaN] and [Infinity] as validity (neither is
    below 1) and returns a key, and [validate] rejects that key every time:
    the first two characters of its header, "Na" or "In", do not parse. *)
Theorem generate_NaN_key_is_rejected env cg cv validity payload :
  validity = NaN \/ validity = PosInf ->
  has_btoa env = true -> has_atob env = true ->
  payload <> [] -> Forall latin1 payload -> Spec.plain_clock cg ->
  exists key,
    RPAK.generate env cg (JNumber validity) (JString payload) = Normal key
    /\ RPAK.validate env cv (JString key)
       = Normal (RPAK.Invalid (str "Invalid RPAK format: Cannot parse validity")).
Proof.
  intros Hv Hb Ha Hne Hp Hc.
  assert (Hf : Forall latin1 (RPAK.formatValidity env validity)
               /\ Forall (fun c => c <> 124%N) (RPAK.formatValidity env validity)
               /\ lt_one validity = false
               /\ forall rest, parseInt (take 2 (RPAK.formatValidity env validity ++ rest))
                               = None).
  { destruct Hv as [-> | ->]; vm_compute;
      (split; [repeat (constructor; [discriminate|]); constructor|]);
      (split; [repeat (constructor; [discriminate|]); constructor|]);
      split; reflexivity. }
  destruct Hf as (Hf & Hsep & Hlt & Hparse).
  eexists. split; [now apply generate_key_of_text|].
  rewrite validate_decoded.
  - now rewrite Hparse.
  - apply Forall_app. split; [exact Hsep|].
    eapply Forall_impl; [apply decimal_chars|]. intros x Hx. apply Hx.
  - apply decode_atob; [exact Ha|].
    apply List.Forall_rev, Forall_app. split.
    + apply Forall_app. split; [exact Hf|].
      eapply Forall_impl; [apply decimal_chars|]. intros x Hx. apply Hx.
    + constructor; [unfold latin1; lia | exact Hp].
Qed.

Lemma generate_NaN_key_is_rejected_witness :
  exists key,
    RPAK.generate Hosts.browser (Hosts.at_time 1769903998123)
      (JNumber NaN) (JString (str "x")) = Normal key
    /\ RPAK.validate Hosts.browser (Hosts.at_time 1769903998123) (JString key)
       = Normal (RPAK.Invalid (str "Invalid RPAK format: Cannot parse validity")).
Proof.
  apply (generate_NaN_key_is_rejected Hosts.browser (Hosts.at_time 1769903998123)
           (Hosts.at_time 1769903998123) NaN (str "x")).
  - now left.
  - reflexivity.
  - reflexivity.
  - discriminate.
  - vm_compute. repeat (constructor; [discriminate|]). constructor.
  - split; [unfold time_value; simpl; lia | vm_compute; split; discriminate].
Defined.

(** A number of three digits is its first two digits and its last. *)
Lemma decimal_three_digits v :
  (100 <= v <= 999)%Z ->
  decimal v = Spec.pad2 (v / 10) ++ [Z.to_N (48 + v mod 10)].
Proof.
  intros H.
  pose proof (all_from_spec 900 100%Z
    (fun v => bool_decide
       (decimal v = Spec.pad2 (v / 10) ++ [Z.to_N (48 + v mod 10)]))) as E.
  cbv beta in E. specialize (E ltac:(vm_compute; reflexivity) v ltac:(lia)).
  now apply bool_decide_eq_true in E.
Qed.

(** A digit in front of the text of a number that is not negative. *)
Lemma parseInt_digit_decimal d c :
  (0 <= d <= 9)%Z -> (0 <= c)%Z ->
  parseInt (Z.to_N (48 + d) :: decimal c)
  = Some (d * 10 ^ Z.of_nat (length (decimal c)) + c)%Z.
Proof.
  intros Hd Hc.
  assert (E : decimal c = decimal_N (Z.to_N c)) by (destruct c; [reflexivity..|lia]).
  rewrite E.
  destruct (decimal_N_spec (Z.to_N c)) as (ds & Eds & Hds & Hne & Hv).
  rewrite Eds.
  rewrite <- (app_nil_r (Z.to_N (48 + d) :: ds)).
  rewrite parseInt_digits; [| |discriminate|exact I].
  - f_equal. cbn [fold_left]. rewrite Hv.
    replace (0 * 10 + (Z.to_N (48 + d) - 48))%N with (Z.to_N d) by lia.
    rewrite N2Z.inj_add, N2Z.inj_mul, N2Z.inj_pow, nat_N_Z, !Z2N.id by lia.
    reflexivity.
  - constructor; [apply digit_range; lia | exact Hds].
Qed.

(** X7: a validity of three digits does not survive the key.  [generate]
    writes all three digits in front of the combined value and [validate]
    takes the first two as the validity and the third as the leading digit
    of the combined value: on the day of generation the key of validity [v]
    is read as one of validity [v / 10] issued
    [(v mod 10) * 10 ^ n] seconds later than it was, [n] being the number of
    digits of the combined value.  (So 120 acts as 12, and a key of validity
    125 is not yet valid for some 5 * 10 ^ n seconds.) *)
Theorem three_digit_validity env cg cv v payload :
  (100 <= v <= 999)%Z -> payload <> [] -> Forall latin1 payload ->
  has_btoa env = true -> has_atob env = true ->
  Spec.plain_clock cg -> (0 <= DateNow cg)%Z ->
  Day (NewDate cv) = Day (NewDate cg) ->
  let shift :=
    (v mod 10
     * 10 ^ Z.of_nat (length (decimal (DateNow cg / 1000 + Spec.dateCode (NewDate cg)))))%Z in
  let elapsed := (RPAK.getCurrentEpoch cv - RPAK.getCurrentEpoch cg - shift)%Z in
  exists key,
    RPAK.generate env cg (JInt v) (JString payload) = Normal key
    /\ RPAK.validate env cv (JString key)
       = Normal (RPAK.Checked {|
           RPAK.valid := (0 <=? elapsed)%Z && (elapsed <=? v / 10)%Z;
           RPAK.validity := v / 10;
           RPAK.keyEpoch := Some (RPAK.getCurrentEpoch cg + shift)%Z;
           RPAK.currentEpoch := RPAK.getCurrentEpoch cv;
           RPAK.timeDifference := Some elapsed;
           RPAK.payload := payload;
           RPAK.expired := (v / 10 <? elapsed)%Z;
           RPAK.notYetValid := (elapsed <? 0)%Z |}).
Proof.
  intros Hv Hne Hp Hb Ha Hc H0 Hday shift elapsed.
  pose proof Hc as [Ht Hy].
  set (c := (DateNow cg / 1000 + Spec.dateCode (NewDate cg))%Z) in *.
  assert (Hfmt : RPAK.formatValidity env (Fin (inject_Z v))
                 = Spec.pad2 (v / 10) ++ [Z.to_N (48 + v mod 10)]).
  { unfold RPAK.formatValidity. rewrite NumberToString_integer by lia.
    rewrite decimal_three_digits by exact Hv. reflexivity. }
  assert (Hdig : Forall (fun x => is_digit x = true)
                   (Spec.pad2 (v / 10) ++ [Z.to_N (48 + v mod 10)])).
  { apply Forall_app. split; [apply pad2_digits; lia|].
    constructor; [apply digit_range; lia | constructor]. }
  assert (Hhdr : Forall (fun x => x <> 124%N /\ latin1 x)
                   ((Spec.pad2 (v / 10) ++ [Z.to_N (48 + v mod 10)]) ++ decimal c)).
  { apply Forall_app. split; [|apply decimal_chars].
    eapply Forall_impl; [exact Hdig|]. intros x Hx.
    destruct (digit_plain x Hx) as (_ & _ & _ & ? & ?). tauto. }
  eexists. split.
  { unfold JInt. apply generate_key_of_text; auto.
    - unfold lt_one, Qle_bool. simpl. apply negb_false_iff, Z.leb_le. lia.
    - rewrite Hfmt. eapply Forall_impl; [exact Hdig|].
      intros x Hx. now apply digit_plain. }
  fold c. rewrite Hfmt.
  rewrite validate_decoded.
  2:{ eapply Forall_impl; [exact Hhdr|]. intros x Hx. apply Hx. }
  2:{ apply decode_atob; [exact Ha|].
      apply List.Forall_rev, Forall_app. split.
      - eapply Forall_impl; [exact Hhdr|]. intros x Hx. apply Hx.
      - constructor; [unfold latin1; lia | exact Hp]. }
  replace (take 2 ((Spec.pad2 (v / 10) ++ [Z.to_N (48 + v mod 10)]) ++ decimal c))
    with (Spec.pad2 (v / 10)) by reflexivity.
  replace (drop 2 ((Spec.pad2 (v / 10) ++ [Z.to_N (48 + v mod 10)]) ++ decimal c))
    with (Z.to_N (48 + v mod 10) :: decimal c) by reflexivity.
  assert (Hc0 : (0 <= c)%Z).
  { subst c. pose proof (dateCode_range _ Hy). lia. }
  rewrite parseInt_pad2 by lia.
  rewrite parseInt_digit_decimal by lia.
  rewrite (todaysDate_same_day cv cg Hday), todaysDate_dateCode by exact Hy.
  cbv zeta. unfold RPAK.sub, RPAK.ge, RPAK.le, RPAK.gt, RPAK.lt.
  fold shift.
  replace (shift + c - Spec.dateCode (NewDate cg))%Z
    with (RPAK.getCurrentEpoch cg + shift)%Z
    by (subst c; unfold RPAK.getCurrentEpoch; lia).
  replace (RPAK.getCurrentEpoch cv - (RPAK.getCurrentEpoch cg + shift))%Z
    with elapsed by (subst elapsed; lia).
  reflexivity.
Qed.

Lemma three_digit_validity_witness :
  exists key,
    RPAK.generate Hosts.browser (Hosts.at_time 1769860000000)
      (JInt 125) (JString (str "x")) = Normal key
    /\ RPAK.validate Hosts.browser (Hosts.at_time 1769860001000) (JString key)
       = Normal (RPAK.Checked {|
           RPAK.valid := false;
           RPAK.validity := 12;
           RPAK.keyEpoch := Some 51769860000%Z;
           RPAK.currentEpoch := 1769860001;
           RPAK.timeDifference := Some (-49999999999)%Z;
           RPAK.payload := str "x";
           RPAK.expired := false;
           RPAK.notYetValid := true |}).
Proof.
  apply (three_digit_validity Hosts.browser (Hosts.at_time 1769860000000)
           (Hosts.at_time 1769860001000) 125 (str "x")).
  - lia.
  - discriminate.
  - vm_compute. repeat (constructor; [discriminate|]). constructor.
  - reflexivity.
  - reflexivity.
  - split; [unfold time_value; simpl; lia | vm_compute; split; discriminate].
  - simpl. lia.
  - reflexivity.
Defined.

(** ** Validation on another day *)

(** The key of validity [v] generated at [cg], validated at [cv]. *)
Lemma validate_token_any_day env cg cv v payload :
  (1 <= v <= 99)%Z -> Forall latin1 payload -> has_atob env = true ->
  (1000 <= getUTCFullYear (NewDate cg) <= 9999)%Z ->
  (1000 <= getUTCFullYear (NewDate cv) <= 9999)%Z ->
  let age := (RPAK.getCurrentEpoch cv - RPAK.getCurrentEpoch cg)%Z in
  let drift := (Spec.dateCode (NewDate cv) - Spec.dateCode (NewDate cg))%Z in
  RPAK.validate env cv
    (JString (Spec.token v payload (DateNow cg / 1000) (Spec.dateCode (NewDate cg))))
  = Normal (RPAK.Checked {|
      RPAK.valid := (0 <=? age + drift)%Z && (age + drift <=? v)%Z;
      RPAK.validity := v;
      RPAK.keyEpoch := Some (RPAK.getCurrentEpoch cg - drift)%Z;
      RPAK.currentEpoch := RPAK.getCurrentEpoch cv;
      RPAK.timeDifference := Some (age + drift)%Z;
      RPAK.payload := payload;
      RPAK.expired := (v <? age + drift)%Z;
      RPAK.notYetValid := (age + drift <? 0)%Z |}).
Proof.
  intros Hv Hp Ha Hyg Hyv age drift.
  rewrite validate_token by (auto; lia). cbv zeta.
  rewrite todaysDate_dateCode by exact Hyv.
  unfold RPAK.sub, RPAK.ge, RPAK.le, RPAK.gt, RPAK.lt.
  replace (DateNow cg / 1000 + Spec.dateCode (NewDate cg)
           - Spec.dateCode (NewDate cv))%Z
    with (RPAK.getCurrentEpoch cg - drift)%Z
    by (subst drift; unfold RPAK.getCurrentEpoch; lia).
  replace (RPAK.getCurrentEpoch cv - (RPAK.getCurrentEpoch cg - drift))%Z
    with (age + drift)%Z by (subst age; lia).
  reflexivity.
Qed.

(** X8: the time difference [validate] reports for a generated key is the
    number of seconds since generation plus the difference of the two date
    codes (DDMMYYYY read as integers) of the validation day and the
    generation day; it is the true age of the key only when the two days
    are the same. *)
Theorem validate_on_any_day env cg cv v payload :
  (1 <= v <= 99)%Z -> payload <> [] -> Forall latin1 payload ->
  has_btoa env = true -> has_atob env = true -> Spec.plain_clock cg ->
  (1000 <= getUTCFullYear (NewDate cv) <= 9999)%Z ->
  let age := (RPAK.getCurrentEpoch cv - RPAK.getCurrentEpoch cg)%Z in
  let drift := (Spec.dateCode (NewDate cv) - Spec.dateCode (NewDate cg))%Z in
  exists key,
    RPAK.generate env cg (JInt v) (JString payload) = Normal key
    /\ RPAK.validate env cv (JString key)
       = Normal (RPAK.Checked {|
           RPAK.valid := (0 <=? age + drift)%Z && (age + drift <=? v)%Z;
           RPAK.validity := v;
           RPAK.keyEpoch := Some (RPAK.getCurrentEpoch cg - drift)%Z;
           RPAK.currentEpoch := RPAK.getCurrentEpoch cv;
           RPAK.timeDifference := Some (age + drift)%Z;
           RPAK.payload := payload;
           RPAK.expired := (v <? age + drift)%Z;
           RPAK.notYetValid := (age + drift <? 0)%Z |}).
Proof.
  intros Hv Hne Hp Hb Ha [Ht Hy] Hyv age drift.
  eexists. split; [apply generate_token; auto; now split|].
  now apply validate_token_any_day.
Qed.

Lemma validate_on_any_day_witness :
  exists key,
    RPAK.generate Hosts.browser (Hosts.at_time 1769903998000)
      (JInt 5) (JString (str "x")) = Normal key
    /\ RPAK.validate Hosts.browser (Hosts.at_time 1769904010000) (JString key)
       = Normal (RPAK.Checked {|
           RPAK.valid := false;
           RPAK.validity := 5;
           RPAK.keyEpoch := Some 1799893998%Z;
           RPAK.currentEpoch := 1769904010;
           RPAK.timeDifference := Some (-29989988)%Z;
           RPAK.payload := str "x";
           RPAK.expired := false;
           RPAK.notYetValid := true |}).
Proof.
  apply (validate_on_any_day Hosts.browser (Hosts.at_time 1769903998000)
           (Hosts.at_time 1769904010000) 5 (str "x")).
  - lia.
  - discriminate.
  - vm_compute. repeat (constructor; [discriminate|]). constructor.
  - reflexivity.
  - reflexivity.
  - split; [unfold time_value; simpl; lia | vm_compute; split; discriminate].
  - vm_compute; split; discriminate.
Defined.



(** X10: with a year of four digits, [getTodaysDateUTC] is a string of
    exactly eight decimal digits: two for the day, two for the month, four
    for the year. *)
Theorem todaysDate_eight_digits clk :
  (1000 <= getUTCFullYear (NewDate clk) <= 9999)%Z ->
  RPAK.getTodaysDateUTC clk
  = Spec.pad2 (getUTCDate (NewDate clk))
      ++ Spec.pad2 (getUTCMonth (NewDate clk) + 1)
      ++ Spec.pad2 (getUTCFullYear (NewDate clk) / 100)
      ++ Spec.pad2 (getUTCFullYear (NewDate clk) mod 100)
  /\ length (RPAK.getTodaysDateUTC clk) = 8%nat
  /\ Forall (fun c => is_digit c = true) (RPAK.getTodaysDateUTC clk).
Proof.
  intros Hy. destruct (utc_date_range (NewDate clk)) as [Hd Hm].
  assert (E : RPAK.getTodaysDateUTC clk
              = Spec.pad2 (getUTCDate (NewDate clk))
                  ++ Spec.pad2 (getUTCMonth (NewDate clk) + 1)
                  ++ Spec.pad2 (getUTCFullYear (NewDate clk) / 100)
                  ++ Spec.pad2 (getUTCFullYear (NewDate clk) mod 100)).
  { unfold RPAK.getTodaysDateUTC. cbv zeta.
    rewrite !padStart_pad2, decimal_year by lia. reflexivity. }
  rewrite E. split; [reflexivity|]. split; [reflexivity|].
  repeat (apply Forall_app; split); apply pad2_digits; lia.
Qed.

Lemma todaysDate_eight_digits_witness :
  RPAK.getTodaysDateUTC (Hosts.at_time 1769903998123) = str "31012026"
  /\ length (RPAK.getTodaysDateUTC (Hosts.at_time 1769903998123)) = 8%nat
  /\ Forall (fun c => is_digit c = true)
       (RPAK.getTodaysDateUTC (Hosts.at_time 1769903998123)).
Proof.
  apply (todaysDate_eight_digits (Hosts.at_time 1769903998123)).
  vm_compute; split; discriminate.
Defined.

(** ** Hosts with [Buffer] only *)

Lemma seven_bit_latin1 s : Forall Spec.seven_bit s -> Forall latin1 s.
Proof.
  intros H. eapply Forall_impl; [exact H|].
  intros c Hc. unfold Spec.seven_bit, latin1 in *. lia.
Qed.

Lemma xor42_seven_bit s : Forall Spec.seven_bit s -> Forall Spec.seven_bit (Spec.xor42 s).
Proof.
  unfold Spec.xor42.
  induction 1 as [|c s Hc _ IH]; simpl; constructor; [|exact IH].
  pose proof (all_units_below 128 (fun c => N.lxor c 42 <? 128)%N) as E.
  cbv beta in E. apply N.ltb_lt. exact (E eq_refl c Hc).
Qed.

Lemma decimal_seven_bit z : Forall Spec.seven_bit (decimal z).
Proof.
  assert (H : forall n, Forall Spec.seven_bit (decimal_N n)).
  { intros n. destruct (decimal_N_spec n) as (ds & E & Hds & _). rewrite E.
    eapply Forall_impl; [exact Hds|]. intros c Hc. cbv beta in Hc.
    apply digit_range in Hc. unfold Spec.seven_bit. lia. }
  destruct z; simpl; [apply H | apply H |].
  constructor; [unfold Spec.seven_bit; lia | apply H].
Qed.

Lemma header_seven_bit v c :
  (0 <= v <= 99)%Z ->
  Forall (fun x => x <> 124%N /\ Spec.seven_bit x) (Spec.pad2 v ++ decimal c).
Proof.
  intros Hv. apply Forall_app. split.
  - eapply Forall_impl; [exact (pad2_digits v Hv)|]. intros x Hx. cbv beta in Hx.
    apply digit_range in Hx. unfold Spec.seven_bit. split; lia.
  - pose proof (decimal_chars c) as H1. pose proof (decimal_seven_bit c) as H2.
    induction H1 as [|x l [Hx _] _ IH]; [constructor|].
    constructor; [split; [exact Hx | exact (Forall_inv H2)]|].
    apply IH. exact (Forall_inv_tail H2).
Qed.

(** A key of the specified format is the key of its text. *)
Lemma token_key_of_text v payload e dc :
  Spec.token v payload e dc
  = Spec.key_of_text ((Spec.pad2 v ++ decimal (e + dc)) ++ 124%N :: payload).
Proof.
  unfold Spec.token, Spec.key_of_text, Spec.plaintext.
  now rewrite str_pipe, <- app_assoc.
Qed.

Lemma decode_Buffer env buffer text :
  has_atob env = false -> Buffer env = Some buffer -> Spec.ascii_faithful buffer ->
  Forall Spec.seven_bit text ->
  RPAK.decodeFromBase64 env (base64_encode (Spec.xor42 text)) = Normal text.
Proof.
  intros Ha HB Hf Ht. unfold RPAK.decodeFromBase64. rewrite Ha, HB.
  rewrite (proj2 (Hf _ (xor42_seven_bit _ Ht))). cbn [bind].
  pose proof (seven_bit_latin1 _ Ht) as Hl.
  rewrite <- xorEncode_xor42 by exact Hl.
  now rewrite xorDecode_xorEncode.
Qed.

Lemma generate_token_Buffer env buffer clk v payload :
  (1 <= v <= 99)%Z -> payload <> [] -> Forall Spec.seven_bit payload ->
  has_btoa env = false -> Buffer env = Some buffer -> Spec.ascii_faithful buffer ->
  Spec.plain_clock clk ->
  RPAK.generate env clk (JInt v) (JString payload)
  = Normal (Spec.token v payload (DateNow clk / 1000) (Spec.dateCode (NewDate clk))).
Proof.
  intros Hv Hne Hp Hb HB Hf [Ht Hy]. unfold RPAK.generate, JInt.
  assert (E1 : lt_one (Fin (inject_Z v)) = false).
  { unfold lt_one, Qle_bool. simpl. apply negb_false_iff, Z.leb_le. lia. }
  rewrite E1.
  destruct payload as [|c0 payload0] eqn:Epl; [contradiction|].
  rewrite <- Epl in *. replace (length payload =? 0)%nat with false
    by (subst payload; reflexivity).
  cbv zeta.
  rewrite todaysDate_dateCode by exact Hy.
  unfold RPAK.getCurrentEpoch, RPAK.add, RPAK.formatValidity, int_text.
  pose proof (dateCode_range _ Hy) as Hdc.
  unfold time_value in Ht.
  rewrite !NumberToString_integer by lia.
  rewrite padStart_pad2 by lia.
  rewrite reverseString_rev.
  unfold RPAK.encodeToBase64. rewrite Hb, HB.
  rewrite token_key_of_text. unfold Spec.key_of_text.
  set (c := (DateNow clk / 1000 + Spec.dateCode (NewDate clk))%Z).
  rewrite str_pipe. change ([124%N] ++ payload) with (124%N :: payload).
  set (text := (Spec.pad2 v ++ decimal c) ++ 124%N :: payload).
  assert (Hs : Forall Spec.seven_bit (rev text)).
  { apply List.Forall_rev. subst text. apply Forall_app. split.
    - eapply Forall_impl; [exact (header_seven_bit v c ltac:(lia))|].
      intros x Hx. apply Hx.
    - constructor; [unfold Spec.seven_bit; lia | exact Hp]. }
  rewrite xorEncode_xor42 by now apply seven_bit_latin1.
  rewrite (proj1 (Hf _ (xor42_seven_bit _ Hs))). reflexivity.
Qed.

(** X11: on ASCII text the [Buffer] fallback and the [btoa] path are
    interchangeable.  For a validity of 1 to 99 and an ASCII payload, a host
    that has only [Buffer] generates the very key a host with [btoa]
    generates at the same clock, and the two hosts give the same answer when
    they validate it, at any time. *)
Theorem Buffer_keys_are_btoa_keys env env' buffer cg cv v payload :
  has_btoa env = false -> has_atob env = false -> Buffer env = Some buffer ->
  Spec.ascii_faithful buffer ->
  has_btoa env' = true -> has_atob env' = true ->
  (1 <= v <= 99)%Z -> payload <> [] -> Forall Spec.seven_bit payload ->
  Spec.plain_clock cg ->
  exists key,
    RPAK.generate env cg (JInt v) (JString payload) = Normal key
    /\ RPAK.generate env' cg (JInt v) (JString payload) = Normal key
    /\ RPAK.validate env cv (JString key) = RPAK.validate env' cv (JString key).
Proof.
  intros Hb Ha HB Hf Hb' Ha' Hv Hne Hp Hc.
  pose proof (seven_bit_latin1 _ Hp) as Hl.
  eexists. split; [now apply (generate_token_Buffer env buffer)|].
  split; [now apply generate_token|].
  rewrite token_key_of_text.
  set (c := (DateNow cg / 1000 + Spec.dateCode (NewDate cg))%Z).
  pose proof (header_seven_bit v c ltac:(lia)) as Hh.
  assert (Hsep : Forall (fun x => x <> 124%N) (Spec.pad2 v ++ decimal c)).
  { eapply Forall_impl; [exact Hh|]. intros x Hx. apply Hx. }
  assert (Hs : Forall Spec.seven_bit (rev ((Spec.pad2 v ++ decimal c) ++ 124%N :: payload))).
  { apply List.Forall_rev. apply Forall_app. split.
    - eapply Forall_impl; [exact Hh|]. intros x Hx. apply Hx.
    - constructor; [unfold Spec.seven_bit; lia | exact Hp]. }
  rewrite !validate_decoded; auto.
  - apply decode_atob; [exact Ha'|]. now apply seven_bit_latin1.
  - now apply (decode_Buffer env buffer).
Qed.

Lemma ascii_buffer_faithful : Spec.ascii_faithful Hosts.ascii_buffer.
Proof.
  intros s Hs. unfold Hosts.ascii_buffer. cbn [base64_of_string string_of_base64].
  split.
  - f_equal. induction Hs as [|c s Hc _ IH]; [reflexivity|].
    cbn [map concat]. rewrite IH. unfold utf8.
    unfold Spec.seven_bit in Hc. apply N.ltb_lt in Hc. now rewrite Hc.
  - now rewrite atob_base64_encode by now apply seven_bit_latin1.
Qed.

Lemma Buffer_keys_are_btoa_keys_witness :
  exists key,
    RPAK.generate Hosts.old_node (Hosts.at_time 1769903998123)
      (JInt 60) (JString (str "{}")) = Normal key
    /\ RPAK.generate Hosts.browser (Hosts.at_time 1769903998123)
         (JInt 60) (JString (str "{}")) = Normal key
    /\ RPAK.validate Hosts.old_node (Hosts.at_time 1769904000000) (JString key)
       = RPAK.validate Hosts.browser (Hosts.at_time 1769904000000) (JString key).
Proof.
  apply (Buffer_keys_are_btoa_keys Hosts.old_node Hosts.browser Hosts.ascii_buffer
           (Hosts.at_time 1769903998123) (Hosts.at_time 1769904000000) 60 (str "{}")).
  - reflexivity.
  - reflexivity.
  - reflexivity.
  - exact ascii_buffer_faithful.
  - reflexivity.
  - reflexivity.
  - lia.
  - discriminate.
  - vm_compute. repeat (constructor; [reflexivity|]). constructor.
  - split; [unfold time_value; simpl; lia | vm_compute; split; discriminate].
Defined.

(** ** The client: what every method does *)

Lemma searchBySACKeywords_trimmed env clk net s :
  searchBySACKeywords env clk net (JString s)
  = if (length (trim s) =? 0)%nat
    then reject_Error (str "Search query cannot be empty")
    else match encodeURIComponent (trim s) with
         | None =>
             ([], Rejected {| err_class := URIError;
                              message := fault_message env MalformedURI |})
         | Some encoded =>
             makeRequest env clk net
               (API_BASE_URL ++ str "/search/sac?query=" ++ encoded)
         end.
Proof. destruct s; reflexivity. Qed.

Lemma getSACHierarchy_trimmed env clk net s :
  getSACHierarchy env clk net (JString s)
  = if (length (trim s) =? 0)%nat
    then reject_Error (str "SAC code cannot be empty")
    else if negb (sac_pattern (trim s))
    then reject_Error (str "Invalid SAC code format. Must be 6 digits.")
    else makeRequest env clk net (API_BASE_URL ++ str "/search/sac/" ++ trim s).
Proof. destruct s; reflexivity. Qed.

Lemma getSACTaxInfo_trimmed env clk net s :
  getSACTaxInfo env clk net (JString s)
  = if (length (trim s) =? 0)%nat
    then reject_Error (str "SAC code cannot be empty")
    else if negb (sac_pattern (trim s))
    then reject_Error (str "Invalid SAC code format. Must be 6 digits.")
    else makeRequest env clk net
           (API_BASE_URL ++ str "/search/sac/" ++ trim s ++ str "/taxes").
Proof. destruct s; reflexivity. Qed.

(** Each of the six methods either rejects before any request or is a call
    of [makeRequest]. *)
Lemma method_outcome m env clk net v :
  In m single_request_methods ->
  (exists e, m env clk net v = ([], Rejected e))
  \/ (exists target, m env clk net v = makeRequest env clk net target).
Proof.
  intros Hm.
  assert (Hs : forall s,
             (exists e, m env clk net (JString s) = ([], Rejected e))
             \/ (exists target,
                   m env clk net (JString s) = makeRequest env clk net target)).
  { intros s. unfold single_request_methods in Hm. simpl in Hm.
    destruct Hm as [<-|[<-|[<-|[<-|[<-|[<-|[]]]]]]].
    - rewrite searchByKeywords_trimmed.
      destruct (length (trim s) =? 0)%nat; [left; eexists; reflexivity|].
      destruct (encodeURIComponent (trim s)); [right | left]; eexists; reflexivity.
    - rewrite searchBySACKeywords_trimmed.
      destruct (length (trim s) =? 0)%nat; [left; eexists; reflexivity|].
      destruct (encodeURIComponent (trim s)); [right | left]; eexists; reflexivity.
    - rewrite getHierarchy_trimmed.
      destruct (length (trim s) =? 0)%nat; [left; eexists; reflexivity|].
      destruct (hsn_pattern (trim s)); [right | left]; eexists; reflexivity.
    - rewrite getTaxInfo_trimmed.
      destruct (length (trim s) =? 0)%nat; [left; eexists; reflexivity|].
      destruct (hsn_pattern (trim s)); [right | left]; eexists; reflexivity.
    - rewrite getSACHierarchy_trimmed.
      destruct (length (trim s) =? 0)%nat; [left; eexists; reflexivity|].
      destruct (sac_pattern (trim s)); [right | left]; eexists; reflexivity.
    - rewrite getSACTaxInfo_trimmed.
      destruct (length (trim s) =? 0)%nat; [left; eexists; reflexivity|].
      destruct (sac_pattern (trim s)); [right | left]; eexists; reflexivity. }
  destruct v as [| |b|n|s|items|props]; try apply Hs; left;
    unfold single_request_methods in Hm; simpl in Hm;
    destruct Hm as [<-|[<-|[<-|[<-|[<-|[<-|[]]]]]]];
    unfold searchByKeywords, searchBySACKeywords, getHierarchy, getTaxInfo,
      getSACHierarchy, getSACTaxInfo, reject_Error;
    match goal with
    | |- context [ToBoolean ?x] => destruct (ToBoolean x)
    end; cbn [negb]; eexists; reflexivity.
Qed.

(** X12: a method resolves only with the parsed body of a response that
    was [ok].  Whenever one of the six methods resolves with [d], it made
    exactly one request, the network answered it with a response whose
    [ok] is true, and [d] is what [response.json()] gave. *)
Theorem resolved_from_ok_response m env clk net v requests d :
  In m single_request_methods ->
  m env clk net v = (requests, Resolved d) ->
  exists request response,
    requests = [request]
    /\ net request = Resolved response
    /\ ok response = true
    /\ json response = Resolved d.
Proof.
  intros Hm H.
  destruct (method_outcome m env clk net v Hm) as [[e He] | [target Ht]].
  - rewrite He in H. discriminate.
  - rewrite Ht in H. unfold makeRequest in H.
    destruct (RPAK.generate env clk (JInt 4) (JString (str "{}"))) as [key|e];
      [|discriminate].
    cbv zeta in H. injection H as <- Hd.
    eexists. destruct (net _) as [response|e] eqn:En; [|discriminate].
    exists response. split; [reflexivity|]. split; [exact En|].
    destruct (ok response); cbn [negb] in Hd.
    + split; [reflexivity | exact Hd].
    + destruct (text response); discriminate.
Qed.

Lemma resolved_from_ok_response_witness :
  exists request response,
    fst (getHierarchy Hosts.browser (Hosts.at_time 1769903998123)
           (Hosts.serving (JBool true)) (JString (str "1234"))) = [request]
    /\ Hosts.serving (JBool true) request = Resolved response
    /\ ok response = true
    /\ json response = Resolved (JBool true).
Proof.
  apply (resolved_from_ok_response getHierarchy Hosts.browser
           (Hosts.at_time 1769903998123) (Hosts.serving (JBool true))
           (JString (str "1234"))).
  - right. right. left. reflexivity.
  - vm_compute. reflexivity.
Defined.

(** X13: how a method fails once its request is made.  If the network
    answers the request of one of the six methods with a response that is
    not [ok] and whose text can be read, the method rejects with the Error
    "API Error: <status> <statusText>"; the JSON body is not looked at. *)
Theorem not_ok_response_rejected m env clk net v request response body :
  In m single_request_methods ->
  fst (m env clk net v) = [request] ->
  net request = Resolved response ->
  ok response = false -> text response = Resolved body ->
  snd (m env clk net v)
  = Rejected {| err_class := Error;
                message := str "API Error: " ++ decimal (status response)
                             ++ str " " ++ statusText response |}.
Proof.
  intros Hm Hreq Hn Hok Ht.
  destruct (method_outcome m env clk net v Hm) as [[e He] | [target Htg]].
  - rewrite He in Hreq. discriminate.
  - rewrite Htg in *. unfold makeRequest in *.
    destruct (RPAK.generate env clk (JInt 4) (JString (str "{}"))) as [key|e];
      [|discriminate].
    cbv zeta in *. cbn [fst snd] in *. injection Hreq as Hreq.
    now rewrite Hreq, Hn, Hok, Ht.
Qed.

Lemma not_ok_response_rejected_witness :
  snd (getSACTaxInfo Hosts.browser (Hosts.at_time 1769903998123)
         Hosts.not_found (JString (str "998311")))
  = Rejected {| err_class := Error; message := str "API Error: 404 Not Found" |}.
Proof.
  eapply (not_ok_response_rejected getSACTaxInfo Hosts.browser
            (Hosts.at_time 1769903998123) Hosts.not_found
            (JString (str "998311")) _
            {| ok := false; status := 404; statusText := str "Not Found";
               text := Resolved (str "no such code");
               json := Rejected {| err_class := Error;
                                   message := str "Unexpected token" |} |}
            (str "no such code")).
  - do 5 right. left. reflexivity.
  - vm_compute. reflexivity.
  - reflexivity.
  - reflexivity.
  - reflexivity.
Defined.



Lemma makeRequest_urls env clk net target :
  map url (fst (makeRequest env clk net target)) = []
  \/ map url (fst (makeRequest env clk net target)) = [target].
Proof.
  unfold makeRequest.
  destruct (RPAK.generate env clk (JInt 4) (JString (str "{}")));
    [right | left]; reflexivity.
Qed.

(** X15: the four per-code methods only ever request a code of digits.
    Whatever the argument, [getHierarchy] and [getTaxInfo] make no request
    or one request whose URL is the base URL, "/search/hsn/", 4 to 8 decimal
    digits (and "/taxes" for the tax call); [getSACHierarchy] and
    [getSACTaxInfo] likewise with "/search/sac/" and exactly 6 digits.  No
    other character of the argument can reach the path. *)
Theorem code_urls_are_digits env clk net v :
  (map url (fst (getHierarchy env clk net v)) = []
   \/ exists code,
        hsn_pattern code = true
        /\ map url (fst (getHierarchy env clk net v))
           = [API_BASE_URL ++ str "/search/hsn/" ++ code])
  /\ (map url (fst (getTaxInfo env clk net v)) = []
      \/ exists code,
           hsn_pattern code = true
           /\ map url (fst (getTaxInfo env clk net v))
              = [API_BASE_URL ++ str "/search/hsn/" ++ code ++ str "/taxes"])
  /\ (map url (fst (getSACHierarchy env clk net v)) = []
      \/ exists code,
           sac_pattern code = true
           /\ map url (fst (getSACHierarchy env clk net v))
              = [API_BASE_URL ++ str "/search/sac/" ++ code])
  /\ (map url (fst (getSACTaxInfo env clk net v)) = []
      \/ exists code,
           sac_pattern code = true
           /\ map url (fst (getSACTaxInfo env clk net v))
              = [API_BASE_URL ++ str "/search/sac/" ++ code ++ str "/taxes"]).
Proof.
  destruct (is_string v) eqn:Es.
  - destruct v as [| |b|n|s|items|props]; try discriminate.
    rewrite getHierarchy_trimmed, getTaxInfo_trimmed, getSACHierarchy_trimmed,
      getSACTaxInfo_trimmed.
    destruct (length (trim s) =? 0)%nat; [repeat split; now left|].
    repeat split.
    + destruct (hsn_pattern (trim s)) eqn:Ep; [|now left].
      destruct (makeRequest_urls env clk net
                  (API_BASE_URL ++ str "/search/hsn/" ++ trim s)); eauto.
    + destruct (hsn_pattern (trim s)) eqn:Ep; [|now left].
      destruct (makeRequest_urls env clk net
                  (API_BASE_URL ++ str "/search/hsn/" ++ trim s ++ str "/taxes")); eauto.
    + destruct (sac_pattern (trim s)) eqn:Ep; [|now left].
      destruct (makeRequest_urls env clk net
                  (API_BASE_URL ++ str "/search/sac/" ++ trim s)); eauto.
    + destruct (sac_pattern (trim s)) eqn:Ep; [|now left].
      destruct (makeRequest_urls env clk net
                  (API_BASE_URL ++ str "/search/sac/" ++ trim s ++ str "/taxes")); eauto.
  - destruct v as [| |b|n|s|items|props]; try discriminate;
      unfold getHierarchy, getTaxInfo, getSACHierarchy, getSACTaxInfo, reject_Error;
      match goal with
      | |- context [ToBoolean ?x] => destruct (ToBoolean x)
      end; cbn [negb]; repeat split; now left.
Qed.

(** ** The search methods: what reaches the query string *)

Lemma hex_digit_safe v : (v < 16)%N -> is_uri_safe (hex_digit v) = true.
Proof.
  intros H.
  pose proof (all_units_below 16 (fun v => is_uri_safe (hex_digit v))) as E.
  cbv beta in E. exact (E eq_refl v H).
Qed.

Lemma percent_encode_safe cp :
  (cp < 1114112)%N ->
  Forall (fun c => is_uri_safe c = true) (percent_encode cp)
  /\ percent_encode cp <> [].
Proof.
  intros H. unfold percent_encode, utf8, percent_byte.
  destruct (cp <? 128)%N eqn:E1; [apply N.ltb_lt in E1|apply N.ltb_ge in E1].
  { cbn [map concat app]. split; [|discriminate].
    repeat (constructor; [first [reflexivity | apply hex_digit_safe; lia]|]).
    constructor. }
  destruct (cp <? 2048)%N eqn:E2; [apply N.ltb_lt in E2|apply N.ltb_ge in E2].
  { cbn [map concat app]. split; [|discriminate].
    repeat (constructor; [first [reflexivity | apply hex_digit_safe; lia]|]).
    constructor. }
  destruct (cp <? 65536)%N eqn:E3; [apply N.ltb_lt in E3|apply N.ltb_ge in E3].
  { cbn [map concat app]. split; [|discriminate].
    repeat (constructor; [first [reflexivity | apply hex_digit_safe; lia]|]).
    constructor. }
  cbn [map concat app]. split; [|discriminate].
  repeat (constructor; [first [reflexivity | apply hex_digit_safe; lia]|]).
  constructor.
Qed.

Lemma encodeURIComponent_safe n :
  forall s e,
    (length s <= n)%nat -> Forall utf16 s -> encodeURIComponent s = Some e ->
    Forall (fun c => is_uri_safe c = true) e /\ (s <> [] -> e <> []).
Proof.
  induction n as [|n IH]; intros s e Hlen Hu H.
  - destruct s; [|simpl in Hlen; lia]. injection H as <-. split; [constructor|tauto].
  - destruct s as [|c rest]; [injection H as <-; split; [constructor|tauto]|].
    pose proof (Forall_inv Hu) as Hc. pose proof (Forall_inv_tail Hu) as Hr.
    unfold utf16 in Hc. simpl in Hlen. cbn [encodeURIComponent] in H.
    destruct (is_uri_unreserved c) eqn:Eun.
    { destruct (encodeURIComponent rest) as [e'|] eqn:Er; [|discriminate].
      injection H as <-.
      destruct (IH rest e' ltac:(lia) Hr Er) as [Hs _].
      split; [|discriminate].
      constructor; [unfold is_uri_safe; now rewrite Eun | exact Hs]. }
    destruct (is_low_surrogate c) eqn:Elo; [discriminate|].
    destruct (is_high_surrogate c) eqn:Ehi.
    { destruct rest as [|d rest']; [discriminate|].
      destruct (is_low_surrogate d) eqn:Ed; [|discriminate].
      destruct (encodeURIComponent rest') as [e'|] eqn:Er; [|discriminate].
      injection H as <-.
      destruct (IH rest' e' ltac:(simpl in Hlen; lia) (Forall_inv_tail Hr) Er)
        as [Hs _].
      unfold is_high_surrogate, is_low_surrogate in Ehi, Ed.
      apply andb_true_iff in Ehi as [Eh1 Eh2]. apply andb_true_iff in Ed as [Ed1 Ed2].
      apply N.leb_le in Eh1, Eh2, Ed1, Ed2.
      destruct (percent_encode_safe ((c - 55296) * 1024 + (d - 56320) + 65536)%N
                  ltac:(lia)) as [Hp Hpn].
      split.
      - apply Forall_app. now split.
      - intros _ Happ. apply app_eq_nil in Happ as [Happ _]. contradiction. }
    destruct (encodeURIComponent rest) as [e'|] eqn:Er; [|discriminate].
    injection H as <-.
    destruct (IH rest e' ltac:(lia) Hr Er) as [Hs _].
    destruct (percent_encode_safe c ltac:(lia)) as [Hp Hpn].
    split.
    + apply Forall_app. now split.
    + intros _ Happ. apply app_eq_nil in Happ as [Happ _]. contradiction.
Qed.

Lemma trimStart_utf16 s : Forall utf16 s -> Forall utf16 (trimStart s).
Proof.
  induction 1 as [|c s Hc Hs IH]; simpl; [constructor|].
  destruct (is_space c); [exact IH | now constructor].
Qed.

Lemma trim_utf16 s : Forall utf16 s -> Forall utf16 (trim s).
Proof.
  intros H. unfold trim, trimEnd.
  apply List.Forall_rev, trimStart_utf16, List.Forall_rev, trimStart_utf16, H.
Qed.

(** X16: the two search methods never put a raw character of the query into
    the URL.  For every query string they make no request or one request
    whose URL is the base URL, "/search/hsn?query=" (or "/search/sac?query=")
    and a non-empty component made of unreserved characters and "%" only:
    no "&", "#", "/", "?", "=" or space of the query gets through. *)
Theorem search_query_is_encoded env clk net s :
  Forall utf16 s ->
  (map url (fst (searchByKeywords env clk net (JString s))) = []
   \/ exists q,
        q <> [] /\ Forall (fun c => is_uri_safe c = true) q
        /\ map url (fst (searchByKeywords env clk net (JString s)))
           = [API_BASE_URL ++ str "/search/hsn?query=" ++ q])
  /\ (map url (fst (searchBySACKeywords env clk net (JString s))) = []
      \/ exists q,
           q <> [] /\ Forall (fun c => is_uri_safe c = true) q
           /\ map url (fst (searchBySACKeywords env clk net (JString s)))
              = [API_BASE_URL ++ str "/search/sac?query=" ++ q]).
Proof.
  intros Hu. rewrite searchByKeywords_trimmed, searchBySACKeywords_trimmed.
  destruct (length (trim s) =? 0)%nat eqn:El; [split; now left|].
  destruct (encodeURIComponent (trim s)) as [q|] eqn:Eq; [|split; now left].
  destruct (encodeURIComponent_safe (length (trim s)) (trim s) q
              ltac:(lia) (trim_utf16 s Hu) Eq) as [Hs Hne].
  assert (Hq : q <> []).
  { apply Hne. intros E. rewrite E in El. discriminate. }
  split.
  - destruct (makeRequest_urls env clk net
                (API_BASE_URL ++ str "/search/hsn?query=" ++ q)); eauto.
  - destruct (makeRequest_urls env clk net
                (API_BASE_URL ++ str "/search/sac?query=" ++ q)); eauto.
Qed.

Lemma search_query_is_encoded_witness :
  (map url (fst (searchByKeywords Hosts.browser (Hosts.at_time 1769903998123)
                   Hosts.offline (JString (str " a&b=c d ")))) = []
   \/ exists q,
        q <> [] /\ Forall (fun c => is_uri_safe c = true) q
        /\ map url (fst (searchByKeywords Hosts.browser (Hosts.at_time 1769903998123)
                           Hosts.offline (JString (str " a&b=c d "))))
           = [API_BASE_URL ++ str "/search/hsn?query=" ++ q])
  /\ (map url (fst (searchBySACKeywords Hosts.browser (Hosts.at_time 1769903998123)
                      Hosts.offline (JString (str " a&b=c d ")))) = []
      \/ exists q,
           q <> [] /\ Forall (fun c => is_uri_safe c = true) q
           /\ map url (fst (searchBySACKeywords Hosts.browser
                              (Hosts.at_time 1769903998123)
                              Hosts.offline (JString (str " a&b=c d "))))
              = [API_BASE_URL ++ str "/search/sac?query=" ++ q]).
Proof.
  apply (search_query_is_encoded Hosts.browser (Hosts.at_time 1769903998123)
           Hosts.offline (str " a&b=c d ")).
  vm_compute. repeat (constructor; [reflexivity|]). constructor.
Defined.

(** ** The key in the request header *)

Lemma header_payload_latin1 : Forall latin1 (str "{}").
Proof. repeat (constructor; [unfold latin1; simpl; lia|]). constructor. Qed.

(** X17: the X-API-Key a request carries is a key for the payload "{}" with
    a window of 4 seconds.  On a host with [btoa] and [atob], [makeRequest]
    makes one request whose first header is that key; validated on the same
    UTC day, [age] seconds after the request was built, the key is valid
    exactly when [0 <= age <= 4]. *)
Theorem request_key_window env clk cv net target :
  has_btoa env = true -> has_atob env = true -> Spec.plain_clock clk ->
  Day (NewDate cv) = Day (NewDate clk) ->
  let age := (RPAK.getCurrentEpoch cv - RPAK.getCurrentEpoch clk)%Z in
  exists request key r,
    fst (makeRequest env clk net target) = [request]
    /\ url request = target
    /\ head (headers request) = Some (str "X-API-Key", key)
    /\ RPAK.validate env cv (JString key) = Normal (RPAK.Checked r)
    /\ RPAK.payload r = str "{}"
    /\ RPAK.validity r = 4%Z
    /\ RPAK.valid r = ((0 <=? age)%Z && (age <=? 4)%Z).
Proof.
  intros Hb Ha Hc Hday age. pose proof Hc as [Ht Hy].
  unfold makeRequest.
  rewrite (generate_token env clk 4 (str "{}"));
    [|lia|discriminate|exact header_payload_latin1|exact Hb|exact Hc].
  cbv zeta. cbn [fst].
  eexists. eexists. eexists.
  split; [reflexivity|]. split; [reflexivity|]. split; [reflexivity|].
  split.
  { apply validate_same_day; auto; [lia | exact header_payload_latin1]. }
  repeat split; reflexivity.
Qed.

Lemma request_key_window_witness :
  exists request key r,
    fst (makeRequest Hosts.browser (Hosts.at_time 1769903990000) Hosts.offline
           (str "https://api.taxlookup.fastgst.in/search/hsn/1234")) = [request]
    /\ url request = str "https://api.taxlookup.fastgst.in/search/hsn/1234"
    /\ head (headers request) = Some (str "X-API-Key", key)
    /\ RPAK.validate Hosts.browser (Hosts.at_time 1769903993000) (JString key)
       = Normal (RPAK.Checked r)
    /\ RPAK.payload r = str "{}"
    /\ RPAK.validity r = 4%Z
    /\ RPAK.valid r = true.
Proof.
  apply (request_key_window Hosts.browser (Hosts.at_time 1769903990000)
           (Hosts.at_time 1769903993000) Hosts.offline
           (str "https://api.taxlookup.fastgst.in/search/hsn/1234")).
  - reflexivity.
  - reflexivity.
  - split; [unfold time_value; simpl; lia | vm_compute; split; discriminate].
  - reflexivity.
Defined.

(** X18: the earlier copy of the client sends a key with a window of 60
    seconds: the same statement as for the current copy, with 60 in the
    place of 4. *)
Theorem request_key_window_60 env clk cv net target :
  has_btoa env = true -> has_atob env = true -> Spec.plain_clock clk ->
  Day (NewDate cv) = Day (NewDate clk) ->
  let age := (RPAK.getCurrentEpoch cv - RPAK.getCurrentEpoch clk)%Z in
  exists request key r,
    fst (TaxLookupAPI_60.makeRequest env clk net target) = [request]
    /\ url request = target
    /\ head (headers request) = Some (str "X-API-Key", key)
    /\ RPAK.validate env cv (JString key) = Normal (RPAK.Checked r)
    /\ RPAK.payload r = str "{}"
    /\ RPAK.validity r = 60%Z
    /\ RPAK.valid r = ((0 <=? age)%Z && (age <=? 60)%Z).
Proof.
  intros Hb Ha Hc Hday age. pose proof Hc as [Ht Hy].
  unfold TaxLookupAPI_60.makeRequest.
  rewrite (generate_token env clk 60 (str "{}"));
    [|lia|discriminate|exact header_payload_latin1|exact Hb|exact Hc].
  cbv zeta. cbn [fst].
  eexists. eexists. eexists.
  split; [reflexivity|]. split; [reflexivity|]. split; [reflexivity|].
  split.
  { apply validate_same_day; auto; [lia | exact header_payload_latin1]. }
  repeat split; reflexivity.
Qed.

Lemma request_key_window_60_witness :
  exists request key r,
    fst (TaxLookupAPI_60.makeRequest Hosts.browser (Hosts.at_time 1769903900000)
           Hosts.offline (str "https://api.taxlookup.fastgst.in/search/hsn/1234"))
    = [request]
    /\ url request = str "https://api.taxlookup.fastgst.in/search/hsn/1234"
    /\ head (headers request) = Some (str "X-API-Key", key)
    /\ RPAK.validate Hosts.browser (Hosts.at_time 1769903950000) (JString key)
       = Normal (RPAK.Checked r)
    /\ RPAK.payload r = str "{}"
    /\ RPAK.validity r = 60%Z
    /\ RPAK.valid r = true.
Proof.
  apply (request_key_window_60 Hosts.browser (Hosts.at_time 1769903900000)
           (Hosts.at_time 1769903950000) Hosts.offline
           (str "https://api.taxlookup.fastgst.in/search/hsn/1234")).
  - reflexivity.
  - reflexivity.
  - split; [unfold time_value; simpl; lia | vm_compute; split; discriminate].
  - reflexivity.
Defined.

(** ** The combined calls *)

(** X19: a code that fails the input check costs no request in the combined
    calls either.  For a string that is empty or white space only, and for
    one whose trimmed form does not have the digits asked for,
    [getCompleteHSNInfo] and [getCompleteSACInfo] make no request and reject
    with the message of the check behind their own "Failed to get complete
    ... info: ". *)
Theorem complete_info_checks_input env clk_h clk_t net t_first s :
  (trim s = [] ->
   getCompleteHSNInfo env clk_h clk_t net t_first (JString s)
   = ([], Rejected {|
            err_class := Error;
            message := str "Failed to get complete HSN info: HSN code cannot be empty" |})
   /\ getCompleteSACInfo env clk_h clk_t net t_first (JString s)
      = ([], Rejected {|
               err_class := Error;
               message := str "Failed to get complete SAC info: SAC code cannot be empty" |}))
  /\ (trim s <> [] -> hsn_pattern (trim s) = false ->
      getCompleteHSNInfo env clk_h clk_t net t_first (JString s)
      = ([], Rejected {|
               err_class := Error;
               message := str "Failed to get complete HSN info: Invalid HSN code format. Must be 4-8 digits." |}))
  /\ (trim s <> [] -> sac_pattern (trim s) = false ->
      getCompleteSACInfo env clk_h clk_t net t_first (JString s)
      = ([], Rejected {|
               err_class := Error;
               message := str "Failed to get complete SAC info: Invalid SAC code format. Must be 6 digits." |})).
Proof.
  unfold getCompleteHSNInfo, getCompleteSACInfo.
  rewrite !getHierarchy_trimmed, !getTaxInfo_trimmed, !getSACHierarchy_trimmed,
    !getSACTaxInfo_trimmed.
  split; [|split].
  - intros ->. split; reflexivity.
  - intros Hne Hp. rewrite Hp. destruct (trim s); [contradiction|]. reflexivity.
  - intros Hne Hp. rewrite Hp. destruct (trim s); [contradiction|]. reflexivity.
Qed.

(** X20: [getCompleteSACInfo] joins its two calls as [getCompleteHSNInfo]
    does.  The requests of both calls are made whatever becomes of the
    first; if either call fails, it fails with "Failed to get complete SAC
    info: " and the message of a failed call; if both succeed with results
    that are neither [undefined] nor [null], the tax result having a [meta]
    that is neither, it resolves with the merged record. *)
Theorem complete_SAC_info_join env clk_h clk_t net t_first sacCode :
  let h := getSACHierarchy env clk_h net sacCode in
  let t := getSACTaxInfo env clk_t net sacCode in
  let c := getCompleteSACInfo env clk_h clk_t net t_first sacCode in
  fst c = fst h ++ fst t
  /\ ((exists e, snd h = Rejected e) \/ (exists e, snd t = Rejected e) ->
      exists e,
        (snd h = Rejected e \/ snd t = Rejected e)
        /\ snd c = Rejected {|
             err_class := Error;
             message := str "Failed to get complete SAC info: " ++ message e |})
  /\ (forall hierarchyData taxData,
        snd h = Resolved hierarchyData -> snd t = Resolved taxData ->
        Spec.nullish hierarchyData = false -> Spec.nullish taxData = false ->
        Spec.nullish (Spec.property taxData (str "meta")) = false ->
        snd c = Resolved (JObject
          (<[str "success" := JBool true]>
            (<[str "hierarchy" := Spec.property hierarchyData (str "data")]>
              (<[str "taxInfo" := Spec.property taxData (str "data")]>
                (<[str "meta" :=
                     JObject
                       (<[str "tax_request_id" :=
                            Spec.property (Spec.property taxData (str "meta"))
                              (str "request_id")]>
                          (spread (Spec.property hierarchyData (str "meta"))))]>
                   ∅)))))).
Proof.
  cbv zeta. unfold getCompleteSACInfo. cbn [fst snd].
  set (h := getSACHierarchy env clk_h net sacCode).
  set (t := getSACTaxInfo env clk_t net sacCode).
  split; [reflexivity|]. split.
  - intros Hfail. unfold promise_all.
    destruct (snd h) as [a|e1] eqn:Eh, (snd t) as [b|e2] eqn:Et.
    + destruct Hfail as [[e He] | [e He]]; discriminate.
    + exists e2. split; [now right | reflexivity].
    + exists e1. split; [now left | reflexivity].
    + destruct (fst h); [exists e1; split; [now left | reflexivity]|].
      destruct (fst t); [exists e2; split; [now right | reflexivity]|].
      destruct t_first;
        [exists e2; split; [now right | reflexivity]
        |exists e1; split; [now left | reflexivity]].
  - intros hierarchyData taxData Eh Et Hh Ht Hm.
    unfold promise_all. rewrite Eh, Et. unfold complete_info.
    rewrite !(get_property env hierarchyData) by exact Hh.
    rewrite !(get_property env taxData) by exact Ht.
    cbn [bind field_name].
    rewrite get_property by exact Hm. reflexivity.
Qed.

(** X21: in the record a combined call resolves with, [meta] has the
    [request_id] of the tax result under [tax_request_id], also when the
    hierarchy result's [meta] has a [tax_request_id] of its own, and under
    every other name what the hierarchy result's [meta] has. *)
Theorem merged_meta env clk_h clk_t net t_first hsnCode result :
  snd (getCompleteHSNInfo env clk_h clk_t net t_first hsnCode) = Resolved result ->
  exists hierarchyData taxData merged,
    snd (getHierarchy env clk_h net hsnCode) = Resolved hierarchyData
    /\ snd (getTaxInfo env clk_t net hsnCode) = Resolved taxData
    /\ Spec.property result (str "meta") = JObject merged
    /\ merged !! str "tax_request_id"
       = Some (Spec.property (Spec.property taxData (str "meta")) (str "request_id"))
    /\ forall name,
         name <> str "tax_request_id" ->
         merged !! name = spread (Spec.property hierarchyData (str "meta")) !! name.
Proof.
  unfold getCompleteHSNInfo. cbn [snd]. unfold promise_all.
  destruct (snd (getHierarchy env clk_h net hsnCode)) as [hd|e1];
    destruct (snd (getTaxInfo env clk_t net hsnCode)) as [td|e2];
    try discriminate.
  2:{ destruct (fst _); [discriminate|]. destruct (fst _); [discriminate|].
      destruct t_first; discriminate. }
  unfold complete_info.
  destruct (Spec.nullish hd) eqn:Hh; [destruct hd; discriminate|].
  destruct (Spec.nullish td) eqn:Ht; [destruct hd, td; discriminate|].
  rewrite !(get_property env hd), !(get_property env td) by assumption.
  cbn [bind field_name].
  destruct (Spec.nullish (Spec.property td (str "meta"))) eqn:Hm.
  { destruct (Spec.property td (str "meta")); discriminate. }
  rewrite get_property by exact Hm. cbn [bind].
  intros H. injection H as <-.
  exists hd, td. eexists. split; [reflexivity|]. split; [reflexivity|].
  split.
  { unfold Spec.property. rewrite lookup_insert_ne by discriminate.
    rewrite lookup_insert_ne by discriminate.
    rewrite lookup_insert_ne by discriminate.
    rewrite lookup_insert_eq. reflexivity. }
  split.
  - apply lookup_insert_eq.
  - intros name Hn. now rewrite lookup_insert_ne.
Qed.

Lemma merged_meta_witness :
  exists result,
    snd (getCompleteHSNInfo Hosts.browser (Hosts.at_time 1769903998123)
           (Hosts.at_time 1769903998123) (Hosts.serving Hosts.sample_body) false
           (JString (str "1234"))) = Resolved result
    /\ exists hierarchyData taxData merged,
         snd (getHierarchy Hosts.browser (Hosts.at_time 1769903998123)
                (Hosts.serving Hosts.sample_body) (JString (str "1234")))
         = Resolved hierarchyData
         /\ snd (getTaxInfo Hosts.browser (Hosts.at_time 1769903998123)
                   (Hosts.serving Hosts.sample_body) (JString (str "1234")))
            = Resolved taxData
         /\ Spec.property result (str "meta") = JObject merged
         /\ merged !! str "tax_request_id"
            = Some (Spec.property (Spec.property taxData (str "meta"))
                      (str "request_id"))
         /\ forall name,
              name <> str "tax_request_id" ->
              merged !! name
              = spread (Spec.property hierarchyData (str "meta")) !! name.
Proof.
  eexists. split; [vm_compute; reflexivity|].
  apply (merged_meta Hosts.browser (Hosts.at_time 1769903998123)
           (Hosts.at_time 1769903998123) (Hosts.serving Hosts.sample_body) false
           (JString (str "1234"))).
  vm_compute. reflexivity.
Defined.

(** X22: [testAPIConnection] never rejects.  It resolves with what the
    search for "milk" resolved with, and with [null] when that search
    failed for any reason; the only request it can make is the one for
    "/search/hsn?query=milk". *)
Theorem testAPIConnection_never_rejects env clk net :
  exists d,
    snd (testAPIConnection env clk net) = Resolved d
    /\ (snd (searchByKeywords env clk net (JString (str "milk"))) = Resolved d
        \/ (d = JNull
            /\ exists e,
                 snd (searchByKeywords env clk net (JString (str "milk")))
                 = Rejected e))
    /\ (map url (fst (testAPIConnection env clk net)) = []
        \/ map url (fst (testAPIConnection env clk net))
           = [str "https://api.taxlookup.fastgst.in/search/hsn?query=milk"]).
Proof.
  unfold testAPIConnection. cbn [fst snd].
  assert (E : searchByKeywords env clk net (JString (str "milk"))
              = makeRequest env clk net
                  (str "https://api.taxlookup.fastgst.in/search/hsn?query=milk"))
    by reflexivity.
  rewrite E.
  destruct (snd (makeRequest env clk net _)) as [d|e]; eexists;
    (split; [reflexivity|]); (split; [eauto|]);
    apply makeRequest_urls.
Qed.

(** ** The SAC methods *)

(** X23: the SAC methods check their input before any request.  For a
    string that is empty or white space only, [searchBySACKeywords],
    [getSACHierarchy] and [getSACTaxInfo] reject with their "cannot be
    empty" Error; for one whose trimmed form is not exactly 6 digits,
    [getSACHierarchy] and [getSACTaxInfo] reject with the format Error; no
    request is made in these cases.  A string whose trimmed form is 6 digits
    goes on to [makeRequest] with the URL of the trimmed code. *)
Theorem sac_input_checked env clk net s :
  (trim s = [] ->
   searchBySACKeywords env clk net (JString s)
   = ([], Rejected {| err_class := Error;
                      message := str "Search query cannot be empty" |})
   /\ getSACHierarchy env clk net (JString s)
      = ([], Rejected {| err_class := Error;
                         message := str "SAC code cannot be empty" |})
   /\ getSACTaxInfo env clk net (JString s)
      = ([], Rejected {| err_class := Error;
                         message := str "SAC code cannot be empty" |}))
  /\ (trim s <> [] -> sac_pattern (trim s) = false ->
      getSACHierarchy env clk net (JString s)
      = ([], Rejected {| err_class := Error;
                         message := str "Invalid SAC code format. Must be 6 digits." |})
      /\ getSACTaxInfo env clk net (JString s)
         = ([], Rejected {| err_class := Error;
                            message := str "Invalid SAC code format. Must be 6 digits." |}))
  /\ (sac_pattern (trim s) = true ->
      getSACHierarchy env clk net (JString s)
      = makeRequest env clk net (API_BASE_URL ++ str "/search/sac/" ++ trim s)
      /\ getSACTaxInfo env clk net (JString s)
         = makeRequest env clk net
             (API_BASE_URL ++ str "/search/sac/" ++ trim s ++ str "/taxes")).
Proof.
  rewrite searchBySACKeywords_trimmed, getSACHierarchy_trimmed, getSACTaxInfo_trimmed.
  split; [|split].
  - intros ->. repeat split; reflexivity.
  - intros Hne Hpat. rewrite Hpat.
    destruct (trim s); [contradiction|]. split; reflexivity.
  - intros Hpat. rewrite Hpat.
    destruct (trim s); [discriminate|]. split; reflexivity.
Qed.

(** X24: white space around the argument changes nothing for the SAC
    methods either: on [pre ++ s ++ post], with [pre] and [post] white
    space, each does exactly what it does on [s]. *)
Theorem sac_surrounding_space_ignored env clk net s pre post :
  Forall (fun c => is_space c = true) pre ->
  Forall (fun c => is_space c = true) post ->
  searchBySACKeywords env clk net (JString (pre ++ s ++ post))
  = searchBySACKeywords env clk net (JString s)
  /\ getSACHierarchy env clk net (JString (pre ++ s ++ post))
     = getSACHierarchy env clk net (JString s)
  /\ getSACTaxInfo env clk net (JString (pre ++ s ++ post))
     = getSACTaxInfo env clk net (JString s).
Proof.
  intros Hpre Hpost.
  rewrite !searchBySACKeywords_trimmed, !getSACHierarchy_trimmed,
    !getSACTaxInfo_trimmed.
  rewrite trim_surrounded by assumption. repeat split; reflexivity.
Qed.

Lemma sac_surrounding_space_ignored_witness :
  searchBySACKeywords Hosts.browser (Hosts.at_time 1769903998123) Hosts.offline
    (JString (str "  " ++ str "998311" ++ [9%N; 10%N]))
  = searchBySACKeywords Hosts.browser (Hosts.at_time 1769903998123) Hosts.offline
      (JString (str "998311"))
  /\ getSACHierarchy Hosts.browser (Hosts.at_time 1769903998123) Hosts.offline
       (JString (str "  " ++ str "998311" ++ [9%N; 10%N]))
     = getSACHierarchy Hosts.browser (Hosts.at_time 1769903998123) Hosts.offline
         (JString (str "998311"))
  /\ getSACTaxInfo Hosts.browser (Hosts.at_time 1769903998123) Hosts.offline
       (JString (str "  " ++ str "998311" ++ [9%N; 10%N]))
     = getSACTaxInfo Hosts.browser (Hosts.at_time 1769903998123) Hosts.offline
         (JString (str "998311")).
Proof.
  apply (sac_surrounding_space_ignored Hosts.browser (Hosts.at_time 1769903998123)
           Hosts.offline (str "998311") (str "  ") [9%N; 10%N]).
  - repeat constructor.
  - repeat constructor.
Defined.
